(** * fawern-ai: the provider abstraction and the generate / run / repair loop

    A shallow embedding of [fawern/config.py], [fawern/providers/*.py],
    [fawern/base_assistant.py] and the [ChatPython] class of
    [fawern/chat_python.py], and the properties of the specification that
    can be stated over it.

    Python's [str] is a sequence of Unicode code points: it is modelled as
    [list N].  Dictionaries whose iteration order is observable (in an error
    message, or through [list(d.keys())[0]]) are association lists in
    insertion order; the others are [gmap]s. *)

From Stdlib Require Import ZArith NArith QArith.QArith_base List String Ascii Bool Lia.
From stdpp Require Import base option list gmap.
Import ListNotations.

#[local] Open Scope N_scope.
#[local] Open Scope list_scope.

(** ** Python strings *)

Module Py.

Abbreviation str := (list N).

(** A literal of the source, written with ASCII characters only. *)
Definition lit (s : string) : str :=
  List.map N_of_ascii (list_ascii_of_string s).

(** [str.isspace] of one character (CPython's [_PyUnicode_IsWhitespace]). *)
Definition isspace (c : N) : bool :=
  ((9 <=? c) && (c <=? 13)) || ((28 <=? c) && (c <=? 32))
  || (c =? 133) || (c =? 160) || (c =? 5760)
  || ((8192 <=? c) && (c <=? 8202))
  || (c =? 8232) || (c =? 8233) || (c =? 8239) || (c =? 8287) || (c =? 12288).

(** A line boundary of [str.splitlines] (CPython's [_PyUnicode_IsLinebreak]). *)
Definition islinebreak (c : N) : bool :=
  ((10 <=? c) && (c <=? 13)) || ((28 <=? c) && (c <=? 30))
  || (c =? 133) || (c =? 8232) || (c =? 8233).

Fixpoint lstrip (s : str) : str :=
  match s with
  | c :: s' => if isspace c then lstrip s' else s
  | [] => []
  end.

Definition rstrip (s : str) : str := rev (lstrip (rev s)).

(** [s.strip()] *)
Definition strip (s : str) : str := rstrip (lstrip s).

(** [s.startswith(p)] *)
Fixpoint startswith (p s : str) : bool :=
  match p, s with
  | [], _ => true
  | a :: p', b :: s' => (a =? b) && startswith p' s'
  | _ :: _, [] => false
  end.

(** [s.endswith(p)] *)
Definition endswith (p s : str) : bool := startswith (rev p) (rev s).

(** [sub in s] *)
Fixpoint contains (sub s : str) : bool :=
  startswith sub s ||
  match s with
  | [] => false
  | _ :: s' => contains sub s'
  end.

(** [sep.join(l)] *)
Fixpoint join (sep : str) (l : list str) : str :=
  match l with
  | [] => []
  | [x] => x
  | x :: l' => x ++ sep ++ join sep l'
  end.

(** [s.replace(old, new)] for a non-empty [old]: the occurrences are found
    from the left and do not overlap; [skip] counts the characters of an
    occurrence that are still to be passed over. *)
Fixpoint replace_from (old new : str) (skip : nat) (s : str) : str :=
  match s with
  | [] => []
  | c :: s' =>
      match skip with
      | S k => replace_from old new k s'
      | O =>
          if startswith old s
          then new ++ replace_from old new (Nat.pred (length old)) s'
          else c :: replace_from old new O s'
      end
  end.

(** [s.replace(old, new)]; with an empty [old], Python puts [new] before
    every character and at the end. *)
Definition replace (old new s : str) : str :=
  match old with
  | [] => new ++ flat_map (fun c => c :: new) s
  | _ :: _ => replace_from old new O s
  end.

(** [s.split(sep)] for a non-empty [sep]; [cur] is the current piece,
    reversed. *)
Fixpoint split_from (sep : str) (skip : nat) (cur : str) (s : str) : list str :=
  match s with
  | [] => [rev cur]
  | c :: s' =>
      match skip with
      | S k => split_from sep k cur s'
      | O =>
          if startswith sep s
          then rev cur :: split_from sep (Nat.pred (length sep)) [] s'
          else split_from sep O (c :: cur) s'
      end
  end.

Definition split (sep s : str) : list str := split_from sep O [] s.

(** [s.splitlines()]: the lines without their terminators; ["\r\n"] is a
    single terminator, and a final terminator opens no further line. *)
Fixpoint splitlines_from (cur : str) (s : str) : list str :=
  match s with
  | [] => match cur with [] => [] | _ :: _ => [rev cur] end
  | c :: s' =>
      if islinebreak c
      then rev cur ::
           splitlines_from []
             (if c =? 13
              then match s' with
                   | d :: s'' => if d =? 10 then s'' else s'
                   | [] => s'
                   end
              else s')
      else splitlines_from (c :: cur) s'
  end.

Definition splitlines (s : str) : list str := splitlines_from [] s.

(** [s[n:]] for [0 <= n] *)
Definition slice_from (n : nat) (s : str) : str := drop n s.

(** Truth value of a string. *)
Definition nonempty (s : str) : bool :=
  match s with [] => false | _ :: _ => true end.

(** *** [repr] *)

Definition hex_digit (d : N) : N :=
  if d <? 10 then 48 + d else 87 + d.

Fixpoint hex_fixed (width : nat) (n : N) : str :=
  match width with
  | O => []
  | S w => hex_fixed w (n / 16) ++ [hex_digit (n mod 16)]
  end.

Section Repr.

(** [str.isprintable] of a character outside ASCII: a table of the Unicode
    character database. *)
Variable isprintable : N -> bool.

Definition repr_char (quote c : N) : str :=
  if (c =? quote) || (c =? 92) then [92; c]
  else if c =? 9 then lit "\t"
  else if c =? 10 then lit "\n"
  else if c =? 13 then lit "\r"
  else if (c <? 32) || (c =? 127) then lit "\x" ++ hex_fixed 2 c
  else if c <? 127 then [c]
  else if isprintable c then [c]
  else if c <=? 255 then lit "\x" ++ hex_fixed 2 c
  else if c <=? 65535 then lit "\u" ++ hex_fixed 4 c
  else lit "\U" ++ hex_fixed 8 c.

(** [repr(s)]: single quotes, unless [s] holds a single quote and no double
    quote. *)
Definition repr (s : str) : str :=
  let quote :=
    if existsb (N.eqb 39) s && negb (existsb (N.eqb 34) s) then 34 else 39 in
  quote :: flat_map (repr_char quote) s ++ [quote].

(** [repr] of a list of strings, which is also its [str]. *)
Definition repr_list (l : list str) : str :=
  lit "[" ++ join (lit ", ") (List.map repr l) ++ lit "]".

End Repr.

(** [os.path.join(a, b)] of [posixpath]. *)
Definition path_join (a b : str) : str :=
  if startswith (lit "/") b then b
  else if negb (nonempty a) || endswith (lit "/") a then a ++ b
  else a ++ lit "/" ++ b.

End Py.

Import Py.

(** ** The missing-module pattern

    [re.search(r"No module named '([^']+)'", s)] followed by [.group(1)].
    The character class cannot step over a quote, so at a given start the
    greedy run of non-quote characters is the only candidate for the group:
    it must be non-empty and be followed by a quote. *)

Module Re.

Definition quote : N := 39.

Definition needle : str := lit "No module named '".

Fixpoint strip_prefix (p s : str) : option str :=
  match p, s with
  | [], _ => Some s
  | a :: p', b :: s' => if a =? b then strip_prefix p' s' else None
  | _ :: _, [] => None
  end.

(** The longest prefix without a quote, and what follows it. *)
Fixpoint span_name (s : str) : str * str :=
  match s with
  | [] => ([], [])
  | c :: s' =>
      if c =? quote then ([], s)
      else let (m, r) := span_name s' in (c :: m, r)
  end.

(** The pattern anchored at the start of [s]. *)
Definition match_at (s : str) : option str :=
  match strip_prefix needle s with
  | None => None
  | Some rest =>
      let (m, r) := span_name rest in
      match m, r with
      | _ :: _, q :: _ => if q =? quote then Some m else None
      | _, _ => None
      end
  end.

(** The group of the leftmost match. *)
Fixpoint search (s : str) : option str :=
  match match_at s with
  | Some m => Some m
  | None =>
      match s with
      | [] => None
      | _ :: s' => search s'
      end
  end.

(** What the pattern means: [s] holds the needle, a non-empty name without
    a quote, and a closing quote. *)
Definition occurs (m s : str) : Prop :=
  exists pre post,
    s = pre ++ needle ++ m ++ quote :: post /\ m <> [] /\ (quote ∉ m).

End Re.

Example search_ex :
  Re.search (lit "ModuleNotFoundError: No module named 'numpy'") = Some (lit "numpy").
Proof. reflexivity. Qed.

Example search_empty_name : Re.search (lit "No module named ''") = None.
Proof. reflexivity. Qed.

Example search_second :
  Re.search (lit "No module named '' No module named 'a.b'") = Some (lit "a.b").
Proof. reflexivity. Qed.

(** ** Exceptions, results and the state monad

    Every exception modelled here is a subclass of Python's [Exception], so
    an [except Exception] clause catches each of them; [exc_str] is [str(e)],
    what an f-string prints for [{e}].  A raised exception leaves the state
    as it was when it was raised: side effects are not rolled back. *)

Inductive exc_class : Type :=
| Exception
| ValueError
| TypeError
| ImportError
| IndexError
| AttributeError
| KeyError
| OSError
| FileNotFoundError
| IsADirectoryError
| OtherError (name : str).

Record exc : Type := Exc { exc_type : exc_class; exc_str : str }.

Inductive result (A : Type) : Type :=
| Ok (a : A)
| Raise (e : exc).

Arguments Ok {A} a.
Arguments Raise {A} e.

Definition is_ok {A} (r : result A) : bool :=
  match r with Ok _ => true | Raise _ => false end.

Definition M (S A : Type) : Type := S -> result A * S.

Definition ret {S A} (a : A) : M S A := fun s => (Ok a, s).

Definition raise {S A} (e : exc) : M S A := fun s => (Raise e, s).

Definition bind {S A B} (m : M S A) (k : A -> M S B) : M S B :=
  fun s =>
    match m s with
    | (Ok a, s') => k a s'
    | (Raise e, s') => (Raise e, s')
    end.

(** [try: m  except Exception as e: h e] *)
Definition try_except {S A} (m : M S A) (h : exc -> M S A) : M S A :=
  fun s =>
    match m s with
    | (Ok a, s') => (Ok a, s')
    | (Raise e, s') => h e s'
    end.

Definition gets {S A} (f : S -> A) : M S A := fun s => (Ok (f s), s).

Definition modify {S} (f : S -> S) : M S unit := fun s => (Ok tt, f s).

Definition lift_result {S A} (r : result A) : M S A := fun s => (r, s).

Declare Scope py_scope.
Delimit Scope py_scope with py.

Notation "x <- m ;; k" := (bind m (fun x => k))
  (at level 100, m at next level, k at level 200, right associativity) : py_scope.
Notation "m ;; k" := (bind m (fun _ => k))
  (at level 100, k at level 200, right associativity) : py_scope.

#[local] Open Scope py_scope.

(** ** Python values that travel through keyword arguments *)

#[local] Unset Elimination Schemes.
Inductive pyval : Type :=
| PNone
| PBool (b : bool)
| PInt (z : Z)
| PFloat (q : Q)
| PStr (s : str)
| PList (l : list pyval)
| PDict (d : list (str * pyval)).
#[local] Set Elimination Schemes.

Definition of_option (o : option str) : pyval :=
  match o with Some s => PStr s | None => PNone end.

(** [x or d] for an optional string: [None] and the empty string are false. *)
Definition or_else (x : option str) (d : str) : str :=
  match x with
  | Some ((_ :: _) as s) => s
  | _ => d
  end.

(** ** Ordered dictionaries: association lists in insertion order *)

Fixpoint dict_get {V} (k : str) (d : list (str * V)) : option V :=
  match d with
  | [] => None
  | (k', v) :: d' => if bool_decide (k' = k) then Some v else dict_get k d'
  end.

(** [d[k] = v]: an existing key keeps its place. *)
Fixpoint dict_set {V} (k : str) (v : V) (d : list (str * V)) : list (str * V) :=
  match d with
  | [] => [(k, v)]
  | (k', v') :: d' =>
      if bool_decide (k' = k) then (k, v) :: d' else (k', v') :: dict_set k v d'
  end.

(** [list(d.keys())] *)
Definition keys {V} (d : list (str * V)) : list str := List.map fst d.

(** [k in d] *)
Definition dict_mem {V} (k : str) (d : list (str * V)) : bool :=
  match dict_get k d with Some _ => true | None => false end.

(** ** config.py *)

(** The provider table of [config.py]; each entry is a dictionary. *)
Definition AI_PROVIDERS : list (str * gmap str str) :=
  [ (lit "groq",
      <[lit "api_key_env" := lit "GROQ_API_KEY"]>
      (<[lit "default_model" := lit "llama-3.1-70b-versatile"]>
      (<[lit "base_url" := lit "https://api.groq.com/openai/v1"]>
      (<[lit "client_class" := lit "GroqClient"]> ∅))));
    (lit "openai",
      <[lit "api_key_env" := lit "OPENAI_API_KEY"]>
      (<[lit "default_model" := lit "gpt-4"]>
      (<[lit "base_url" := lit "https://api.openai.com/v1"]>
      (<[lit "client_class" := lit "OpenAIClient"]> ∅)))) ].

(** What importing [config.py] leaves behind: the module's two globals. *)
Record ConfigModule : Type := {
  DEFAULT_PROVIDER : str;
  API_KEYS : list (str * str)
}.

(** The [for provider, config in AI_PROVIDERS.items()] loop that fills
    [API_KEYS]: a key is kept when the variable is set and not empty. *)
Fixpoint collect_api_keys (getenv : str -> option str)
    (providers : list (str * gmap str str)) (api_keys : list (str * str))
    : list (str * str) :=
  match providers with
  | [] => api_keys
  | (provider, config) :: rest =>
      let api_key := config !! lit "api_key_env" ≫= getenv in
      collect_api_keys getenv rest
        (match api_key with
         | Some ((_ :: _) as k) => dict_set provider k api_keys
         | _ => api_keys
         end)
  end.

Section Config.

(** [str.isprintable] outside ASCII, for the [repr] of names in messages. *)
Variable isprintable : N -> bool.

(** The import of [config.py] in an environment [getenv] (after
    [load_dotenv], with the variable's default applied by the code). *)
Definition import_config (getenv : str -> option str) : result ConfigModule :=
  let chosen := default (lit "groq") (getenv (lit "FAWERN_AI_PROVIDER")) in
  let api_keys := collect_api_keys getenv AI_PROVIDERS [] in
  if dict_mem chosen api_keys
  then Ok {| DEFAULT_PROVIDER := chosen; API_KEYS := api_keys |}
  else
    match keys api_keys with
    | first :: _ => Ok {| DEFAULT_PROVIDER := first; API_KEYS := api_keys |}
    | [] =>
        Raise (Exc ValueError
          (lit "No AI provider API keys found. Please set one of: "
           ++ repr_list isprintable (keys AI_PROVIDERS)))
    end.

Variable cfg : ConfigModule.

Definition get_provider_config (provider : option str) : result (gmap str str) :=
  let provider := or_else provider (DEFAULT_PROVIDER cfg) in
  match dict_get provider AI_PROVIDERS with
  | None =>
      Raise (Exc ValueError
        (lit "Unknown provider: " ++ provider ++ lit ". Available: "
         ++ repr_list isprintable (keys AI_PROVIDERS)))
  | Some entry =>
      (* config = entry.copy(); config["api_key"] = API_KEYS.get(provider) *)
      match dict_get provider (API_KEYS cfg) with
      | Some ((_ :: _) as api_key) => Ok (<[lit "api_key" := api_key]> entry)
      | _ =>
          Raise (Exc ValueError
            (lit "API key not found for provider: " ++ provider))
      end
  end.

Definition get_available_providers : list str := keys (API_KEYS cfg).

End Config.

(** ** The process: world, objects and trace *)

Inductive provider_class : Type := GroqProvider | OpenAIProvider.

(** What a caller can hand to [register_provider] as [provider_class]: one
    of the provider classes of the package, a class that does not inherit
    from [BaseProvider], or an object that is not a class.  A subclass of
    [BaseProvider] written by the caller is not covered: its constructor and
    its methods are the caller's code. *)
Inductive class_argument : Type :=
| ProviderClass (cls : provider_class)
| ForeignClass
| NotAClass.

(** A client object of an SDK ([Groq(api_key=...)], [OpenAI(api_key=...)]);
    [client_id] is the object's identity. *)
Record Client : Type := {
  client_sdk : provider_class;
  client_id : nat;
  client_api_key : str
}.

(** An instance of a provider class ([BaseProvider.__init__] and the
    subclass's [_client]). *)
Record Provider : Type := {
  provider_cls : provider_class;
  api_key : str;
  provider_model : pyval;
  provider_kwargs : gmap str pyval;
  _client : Client
}.

(** [completion.choices[i].message.content] *)
Record Choice : Type := { message_content : option str }.

Record ChatCompletion : Type := { choices : list Choice }.

(** [chunk.choices[i].delta.content] *)
Record ChunkChoice : Type := { delta_content : option str }.

Record ChatCompletionChunk : Type := { chunk_choices : list ChunkChoice }.

(** A streamed response: the chunks the iterator hands out, and the
    exception it ends with when the transport fails on the way. *)
Record Stream : Type := {
  chunks : list ChatCompletionChunk;
  stream_error : option exc
}.

(** [subprocess.CompletedProcess] with [capture_output=True, text=True]. *)
Record CompletedProcess : Type := {
  returncode : Z;
  stdout : str;
  stderr : str
}.

Inductive syscall : Type :=
| SysMakedirs (path : str)
| SysOpenW (path : str)
| SysRemove (path : str).

Inductive event : Type :=
| EvPrint (line : str)
| EvRun (argv : list str)
| EvNewClient (c : Client)
| EvCreate (c : Client) (params : gmap str pyval)
| EvSys (call : syscall).

(** A generator run to its end: what it yielded, and the exception that
    ended it, if one did. *)
Definition generated (A : Type) : Type := (list A * option exc)%type.

Section Program.

(** Everything outside the process that the program talks to: the hosted
    model services, the package index, the interpreter's installed packages. *)
Context {Ext : Type}.

(** The outside (directories included), the regular files by path, and the
    working directory of the process. *)
Record World : Type := {
  ext : Ext;
  fs : gmap str str;
  cwd : str
}.

Record Proc : Type := {
  world : World;
  (** [ProviderFactory._providers], a class attribute *)
  _providers : list (str * provider_class);
  (** the identity of the next object *)
  next_id : nat;
  (** what the process did, oldest first *)
  trace : list event
}.

(** *** What the program is run against *)

(** [sys.executable] *)
Variable sys_executable : str.

(** [subprocess.run(argv, capture_output=True, text=True)]: the child runs
    to its end and may change the world. *)
Variable subprocess_run : list str -> World -> result CompletedProcess * World.

(** [client.chat.completions.create] applied to the request parameters, as
    [get_completion] and as [get_streaming_completion] read its value. *)
Variable chat_create : Client -> gmap str pyval -> Ext -> result ChatCompletion * Ext.
Variable chat_create_stream : Client -> gmap str pyval -> Ext -> result Stream * Ext.

(** The operating system refusing a call on the file system (permissions,
    a read-only medium, ...), with the [OSError] it raises. *)
Variable os_refuses : syscall -> World -> option exc.

(** [os.path.isdir(path)]: the path names a directory. *)
Variable os_path_isdir : str -> World -> bool.

(** The outside once [os.makedirs(path, exist_ok=True)] has created the
    directories that were missing. *)
Variable os_makedirs_creates : str -> World -> Ext.

(** [file.write(text)], up to the close of the file, failing once [open]
    has created or truncated the file (a character the encoding does not
    have, a full disk): the exception, and what the file is left with. *)
Variable write_fails : str -> str -> World -> option (exc * str).

Variable isprintable : N -> bool.

(** The interpreter's wording of the [TypeError] for a keyword passed twice
    to a callee. *)
Variable duplicate_keyword : str -> str -> str.

(** Whether [import groq] and [import openai] succeeded. *)
Variable GROQ_AVAILABLE : bool.
Variable OPENAI_AVAILABLE : bool.

Variable cfg : ConfigModule.

(** [PROMPTS["prompts"]["ChatPython"]["generate_code"]["prompt"].format(prompt=p)]:
    the template is read from [prompts.yaml], which is data of the
    installation. *)
Variable generate_code_prompt : str -> result str.

(** *** Primitive actions *)

Definition log (e : event) : M Proc unit :=
  modify (fun p =>
    {| world := world p; _providers := _providers p; next_id := next_id p;
       trace := trace p ++ [e] |}).

Definition print (line : str) : M Proc unit := log (EvPrint line).

Definition set_world (w : World) : M Proc unit :=
  modify (fun p =>
    {| world := w; _providers := _providers p; next_id := next_id p;
       trace := trace p |}).

Definition run (argv : list str) : M Proc CompletedProcess :=
  log (EvRun argv) ;;
  w <- gets world ;;
  let (r, w') := subprocess_run argv w in
  set_world w' ;;
  lift_result r.

Definition upstream {A} (call : Ext -> result A * Ext) : M Proc A :=
  w <- gets world ;;
  let (r, e') := call (ext w) in
  set_world {| ext := e'; fs := fs w; cwd := cwd w |} ;;
  lift_result r.

Definition syscall_allowed (call : syscall) : M Proc unit :=
  log (EvSys call) ;;
  w <- gets world ;;
  match os_refuses call w with
  | Some e => raise e
  | None => ret tt
  end.

(** A regular file or a directory is at the path. *)
Definition path_exists (path : str) (w : World) : bool :=
  bool_decide (is_Some (fs w !! path)) || os_path_isdir path w.

(** [os.path.exists(path)] *)
Definition os_path_exists (path : str) : M Proc bool :=
  w <- gets world ;;
  ret (path_exists path w).

(** The error of [open] and of [os.remove] on a directory. *)
Definition is_a_directory (path : str) : exc :=
  Exc IsADirectoryError (lit "[Errno 21] Is a directory: " ++ repr isprintable path).

(** [os.makedirs(path, exist_ok=True)] *)
Definition os_makedirs (path : str) : M Proc unit :=
  syscall_allowed (SysMakedirs path) ;;
  w <- gets world ;;
  set_world {| ext := os_makedirs_creates path w; fs := fs w; cwd := cwd w |}.

(** [with open(path, "w") as file: file.write(text)]: [open] creates or
    truncates the file, and a write that fails leaves it with what had
    reached it. *)
Definition write_file (path text : str) : M Proc unit :=
  syscall_allowed (SysOpenW path) ;;
  w <- gets world ;;
  if os_path_isdir path w
  then raise (is_a_directory path)
  else
    match write_fails path text w with
    | Some (e, remains) =>
        set_world {| ext := ext w; fs := <[path := remains]> (fs w); cwd := cwd w |} ;;
        raise e
    | None =>
        set_world {| ext := ext w; fs := <[path := text]> (fs w); cwd := cwd w |}
    end.

(** [os.remove(path)] *)
Definition os_remove (path : str) : M Proc unit :=
  syscall_allowed (SysRemove path) ;;
  w <- gets world ;;
  match fs w !! path with
  | None =>
      if os_path_isdir path w
      then raise (is_a_directory path)
      else
        raise (Exc FileNotFoundError
          (lit "[Errno 2] No such file or directory: " ++ repr isprintable path))
  | Some _ => set_world {| ext := ext w; fs := delete path (fs w); cwd := cwd w |}
  end.

(** *** providers/groq_provider.py and providers/openai_provider.py

    The two classes are the same code up to the SDK they import and the
    name they put in their messages. *)

Definition library_available (cls : provider_class) : bool :=
  match cls with
  | GroqProvider => GROQ_AVAILABLE
  | OpenAIProvider => OPENAI_AVAILABLE
  end.

Definition library_missing (cls : provider_class) : str :=
  match cls with
  | GroqProvider => lit "Groq library not installed. Run: pip install groq"
  | OpenAIProvider => lit "OpenAI library not installed. Run: pip install openai"
  end.

Definition api_name (cls : provider_class) : str :=
  match cls with
  | GroqProvider => lit "Groq"
  | OpenAIProvider => lit "OpenAI"
  end.

Definition class_name (cls : provider_class) : str :=
  match cls with
  | GroqProvider => lit "GroqProvider"
  | OpenAIProvider => lit "OpenAIProvider"
  end.

(** [Groq(api_key=api_key)], [OpenAI(api_key=api_key)]: a new object. *)
Definition new_client (sdk : provider_class) (key : str) : M Proc Client :=
  fun p =>
    let c := {| client_sdk := sdk; client_id := next_id p; client_api_key := key |} in
    (Ok c,
     {| world := world p; _providers := _providers p; next_id := S (next_id p);
        trace := trace p ++ [EvNewClient c] |}).

(** [provider_class(api_key=..., model=..., **kwargs)] *)
Definition Provider__init__ (cls : provider_class) (key : str) (model : pyval)
    (kwargs : gmap str pyval) : M Proc Provider :=
  if negb (library_available cls)
  then raise (Exc ImportError (library_missing cls))
  else
    client <- new_client cls key ;;
    ret {| provider_cls := cls; api_key := key; provider_model := model;
           provider_kwargs := kwargs; _client := client |}.

(** The [params] dictionary after [params.update(kwargs)]. *)
Definition request_params (self : Provider) (prompt : str) (stream : bool)
    (kwargs : gmap str pyval) : gmap str pyval :=
  kwargs ∪
  <[lit "model" := provider_model self]>
  (<[lit "messages" :=
      PList [PDict [(lit "role", PStr (lit "user")); (lit "content", PStr prompt)]]]>
  (<[lit "temperature" := default (PFloat (1 # 2)) (kwargs !! lit "temperature")]>
  (<[lit "max_tokens" := default (PInt 1000) (kwargs !! lit "max_tokens")]>
  (<[lit "top_p" := default (PFloat 1) (kwargs !! lit "top_p")]>
  (<[lit "stream" := PBool stream]> ∅))))).

Definition api_error (self : Provider) (e : exc) : exc :=
  Exc Exception (api_name (provider_cls self) ++ lit " API error: " ++ exc_str e).

Definition get_completion (self : Provider) (prompt : str)
    (kwargs : gmap str pyval) : M Proc str :=
  let params := request_params self prompt false kwargs in
  try_except
    (log (EvCreate (_client self) params) ;;
     completion <- upstream (chat_create (_client self) params) ;;
     match choices completion with
     | [] => raise (Exc IndexError (lit "list index out of range"))
     | choice :: _ =>
         match message_content choice with
         | None =>
             raise (Exc AttributeError
               (lit "'NoneType' object has no attribute 'strip'"))
         | Some content => ret (strip content)
         end
     end)
    (fun e => raise (api_error self e)).

(** The [for chunk in completion] loop of the generator. *)
Fixpoint stream_chunks (cs : list ChatCompletionChunk) (stream_end : option exc)
    : generated str :=
  match cs with
  | [] => ([], stream_end)
  | chunk :: cs' =>
      match chunk_choices chunk with
      | [] => ([], Some (Exc IndexError (lit "list index out of range")))
      | choice :: _ =>
          let (ys, e) := stream_chunks cs' stream_end in
          match delta_content choice with
          | Some ((_ :: _) as text) => (text :: ys, e)
          | _ => (ys, e)
          end
      end
  end.

Definition get_streaming_completion (self : Provider) (prompt : str)
    (kwargs : gmap str pyval) : Proc -> generated str * Proc :=
  fun p =>
    let params := request_params self prompt true kwargs in
    match (log (EvCreate (_client self) params) ;;
           upstream (chat_create_stream (_client self) params)) p with
    | (Ok completion, p') =>
        let (ys, e) := stream_chunks (chunks completion) (stream_error completion) in
        ((ys, api_error self <$> e), p')
    | (Raise e, p') => (([], Some (api_error self e)), p')
    end.

Definition validate_credentials (self : Provider) : M Proc bool :=
  try_except
    (get_completion self (lit "Hello") {[ lit "max_tokens" := PInt 5 ]} ;;
     ret true)
    (fun _ => ret false).

(** *** providers/provider_factory.py *)

(** The class attribute as the class statement leaves it. *)
Definition initial_providers : list (str * provider_class) :=
  [ (lit "groq", GroqProvider); (lit "openai", OpenAIProvider) ].

(** The first of [names] that is a key of [kwargs]: a keyword the call
    passes twice. *)
Definition passed_twice (names : list str) (kwargs : gmap str pyval) : option str :=
  List.find (fun k => bool_decide (is_Some (kwargs !! k))) names.

Definition get_provider (provider_name : option str) (kwargs : gmap str pyval)
    : M Proc Provider :=
  config <- lift_result (get_provider_config isprintable cfg provider_name) ;;
  let provider_name :=
    or_else provider_name (default (lit "groq") (config !! lit "provider")) in
  providers <- gets _providers ;;
  match dict_get provider_name providers with
  | None =>
      raise (Exc ValueError
        (lit "Unknown provider: " ++ provider_name ++ lit ". Available: "
         ++ repr_list isprintable (keys providers)))
  | Some provider_class =>
      let model :=
        default (of_option (config !! lit "default_model")) (kwargs !! lit "model") in
      let kwargs := delete (lit "model") kwargs in
      match config !! lit "api_key" with
      | None => raise (Exc KeyError (lit "'api_key'"))
      | Some key =>
          match passed_twice [lit "api_key"; lit "self"] kwargs with
          | Some k =>
              raise (Exc TypeError (duplicate_keyword (class_name provider_class) k))
          | None => Provider__init__ provider_class key model kwargs
          end
      end
  end.

Definition factory_available_providers : M Proc (list str) :=
  gets (fun p => keys (_providers p)).

(** [register_provider(name, provider_class)]; [issubclass] raises a
    [TypeError] when its first argument is not a class. *)
Definition register_provider (name : str) (provider_class : class_argument)
    : M Proc unit :=
  match provider_class with
  | NotAClass => raise (Exc TypeError (lit "issubclass() arg 1 must be a class"))
  | ForeignClass =>
      raise (Exc ValueError (lit "Provider class must inherit from BaseProvider"))
  | ProviderClass cls =>
      modify (fun p =>
        {| world := world p; _providers := dict_set name cls (_providers p);
           next_id := next_id p; trace := trace p |})
  end.

Definition validate_provider (provider_name : option str) : M Proc bool :=
  try_except
    (provider <- get_provider provider_name ∅ ;;
     validate_credentials provider)
    (fun _ => ret false).

(** *** base_assistant.py

    One record holds the attributes of a [ChatPython] object: those
    [BaseAssistant.__init__] sets, then those of the subclass. *)

Record Assistant : Type := {
  provider_name : str;
  model : option str;
  temperature : Q;
  max_tokens : Z;
  top_p : Q;
  kwargs : gmap str pyval;
  provider_config : gmap str str;
  _provider : option Provider;
  generated_code : str;
  prompt : str;
  file_name : str;
  root_directory : str
}.

(** The object a method runs on, and the process around it. *)
Record State : Type := { self : Assistant; proc : Proc }.

Definition liftP {A} (m : M Proc A) : M State A :=
  fun s => let (r, p) := m (proc s) in (r, {| self := self s; proc := p |}).

Definition attr {A} (f : Assistant -> A) : M State A := gets (fun s => f (self s)).

Definition set_self (f : Assistant -> Assistant) : M State unit :=
  modify (fun s => {| self := f (self s); proc := proc s |}).

Definition with_provider_name (v : str) (a : Assistant) : Assistant :=
  {| provider_name := v; model := model a; temperature := temperature a;
     max_tokens := max_tokens a; top_p := top_p a; kwargs := kwargs a;
     provider_config := provider_config a; _provider := _provider a;
     generated_code := generated_code a; prompt := prompt a;
     file_name := file_name a; root_directory := root_directory a |}.

Definition with_kwargs (v : gmap str pyval) (a : Assistant) : Assistant :=
  {| provider_name := provider_name a; model := model a; temperature := temperature a;
     max_tokens := max_tokens a; top_p := top_p a; kwargs := v;
     provider_config := provider_config a; _provider := _provider a;
     generated_code := generated_code a; prompt := prompt a;
     file_name := file_name a; root_directory := root_directory a |}.

Definition with__provider (v : option Provider) (a : Assistant) : Assistant :=
  {| provider_name := provider_name a; model := model a; temperature := temperature a;
     max_tokens := max_tokens a; top_p := top_p a; kwargs := kwargs a;
     provider_config := provider_config a; _provider := v;
     generated_code := generated_code a; prompt := prompt a;
     file_name := file_name a; root_directory := root_directory a |}.

Definition with_generated_code (v : str) (a : Assistant) : Assistant :=
  {| provider_name := provider_name a; model := model a; temperature := temperature a;
     max_tokens := max_tokens a; top_p := top_p a; kwargs := kwargs a;
     provider_config := provider_config a; _provider := _provider a;
     generated_code := v; prompt := prompt a;
     file_name := file_name a; root_directory := root_directory a |}.

Definition with_prompt (v : str) (a : Assistant) : Assistant :=
  {| provider_name := provider_name a; model := model a; temperature := temperature a;
     max_tokens := max_tokens a; top_p := top_p a; kwargs := kwargs a;
     provider_config := provider_config a; _provider := _provider a;
     generated_code := generated_code a; prompt := v;
     file_name := file_name a; root_directory := root_directory a |}.

Definition with_file_name (v : str) (a : Assistant) : Assistant :=
  {| provider_name := provider_name a; model := model a; temperature := temperature a;
     max_tokens := max_tokens a; top_p := top_p a; kwargs := kwargs a;
     provider_config := provider_config a; _provider := _provider a;
     generated_code := generated_code a; prompt := prompt a;
     file_name := v; root_directory := root_directory a |}.

Definition _initialize_provider : M State unit :=
  try_except
    (a <- gets self ;;
     (* ProviderFactory.get_provider(provider_name=..., model=self.model, **self.kwargs) *)
     match passed_twice [lit "model"; lit "provider_name"; lit "cls"] (kwargs a) with
     | Some k =>
         raise (Exc TypeError (duplicate_keyword (lit "get_provider") k))
     | None =>
         provider <- liftP (get_provider (Some (provider_name a))
                              (<[lit "model" := of_option (model a)]> (kwargs a))) ;;
         set_self (with__provider (Some provider))
     end)
    (fun e =>
       available_providers <- liftP factory_available_providers ;;
       name <- attr provider_name ;;
       raise (Exc ValueError
         (lit "Failed to initialize provider '" ++ name ++ lit "': " ++ exc_str e
          ++ lit ". Available providers: "
          ++ repr_list isprintable available_providers))).

Definition with_root_directory (v : str) (a : Assistant) : Assistant :=
  {| provider_name := provider_name a; model := model a; temperature := temperature a;
     max_tokens := max_tokens a; top_p := top_p a; kwargs := kwargs a;
     provider_config := provider_config a; _provider := _provider a;
     generated_code := generated_code a; prompt := prompt a;
     file_name := file_name a; root_directory := v |}.

(** [BaseAssistant.__init__]: the attributes of the subclass are not set
    yet (they are empty in the record). *)
Definition BaseAssistant__init__ (arg_provider_name arg_model : option str)
    (arg_temperature : Q) (arg_max_tokens : Z) (arg_top_p : Q)
    (arg_kwargs : gmap str pyval) : M Proc Assistant :=
  let name := or_else arg_provider_name (DEFAULT_PROVIDER cfg) in
  config <- lift_result (get_provider_config isprintable cfg (Some name)) ;;
  let a :=
    {| provider_name := name;
       model :=
         match arg_model with
         | Some (_ :: _) => arg_model
         | _ => config !! lit "default_model"
         end;
       temperature := arg_temperature; max_tokens := arg_max_tokens;
       top_p := arg_top_p; kwargs := arg_kwargs;
       provider_config := config; _provider := None;
       generated_code := []; prompt := []; file_name := [];
       root_directory := [] |} in
  fun p =>
    match _initialize_provider {| self := a; proc := p |} with
    | (Ok _, s) => (Ok (self s), proc s)
    | (Raise e, s) => (Raise e, proc s)
    end.

(** [ChatPython.__init__]: the object exists for the caller only when the
    constructor returns. *)
Definition ChatPython__init__ (arg_provider_name arg_model : option str)
    (arg_temperature : Q) (arg_max_tokens : Z) (arg_top_p : Q)
    (arg_kwargs : gmap str pyval) : M Proc Assistant :=
  a <- BaseAssistant__init__ arg_provider_name arg_model arg_temperature
         arg_max_tokens arg_top_p arg_kwargs ;;
  w <- gets world ;;
  ret (with_root_directory (cwd w)
        (with_file_name [] (with_prompt [] (with_generated_code [] a)))).

Definition completion_kwargs (a : Assistant) (more : gmap str pyval)
    : gmap str pyval :=
  more ∪
  <[lit "temperature" := PFloat (temperature a)]>
  (<[lit "max_tokens" := PInt (max_tokens a)]>
  (<[lit "top_p" := PFloat (top_p a)]> ∅)).

Definition _get_completion (text : str) (more : gmap str pyval) : M State str :=
  a <- gets self ;;
  try_except
    (match _provider a with
     | None =>
         raise (Exc AttributeError
           (lit "'NoneType' object has no attribute 'get_completion'"))
     | Some provider =>
         liftP (get_completion provider text (completion_kwargs a more))
     end)
    (fun e =>
       raise (Exc Exception
         (lit "AI completion error (" ++ provider_name a ++ lit "): " ++ exc_str e))).

Definition _get_streaming_completion (text : str) (more : gmap str pyval)
    : State -> generated str * State :=
  fun s =>
    let a := self s in
    let wrap e :=
      Exc Exception
        (lit "AI streaming completion error (" ++ provider_name a ++ lit "): "
         ++ exc_str e) in
    match _provider a with
    | None =>
        (([], Some (wrap (Exc AttributeError
            (lit "'NoneType' object has no attribute 'get_streaming_completion'")))),
         s)
    | Some provider =>
        let '((ys, e), p) :=
          get_streaming_completion provider text (completion_kwargs a more) (proc s) in
        ((ys, wrap <$> e), {| self := a; proc := p |})
    end.

Definition switch_provider (new_name : str) (new_kwargs : gmap str pyval)
    : M State unit :=
  set_self (with_provider_name new_name) ;;
  set_self (fun a => with_kwargs (new_kwargs ∪ kwargs a) a) ;;
  _initialize_provider.

(** *** chat_python.py: the class [ChatPython] *)

Definition ESC : str := [27].
Definition GREEN : str := ESC ++ lit "[92m".
Definition RED : str := ESC ++ lit "[91m".
Definition YELLOW : str := ESC ++ lit "[93m".
Definition BLUE : str := ESC ++ lit "[94m".
Definition RESET : str := ESC ++ lit "[0m".
Definition BOLD : str := ESC ++ lit "[1m".

(** The characters of the messages that are outside ASCII. *)
Definition CHECK_MARK : str := [10003].
Definition BROOM : str := [129529].
Definition WARNING_SIGN : str := [9888].
Definition NL : str := [10].

Definition _print_progress_bar (message : str) : M State unit :=
  let bar := GREEN ++ lit "[" ++ List.repeat 61 30 ++ lit "]" ++ RESET in
  liftP (print (BOLD ++ message ++ RESET ++ lit " " ++ bar)).

Definition _remove_python_prefix (code : str) : str :=
  let prefix := lit "python" in
  let code := replace (lit "`") [] code in
  match splitlines code with
  | first :: rest =>
      if startswith prefix (strip first)
      then join NL (strip (slice_from (length prefix) (strip first)) :: rest)
      else code
  | [] => code
  end.

Definition _generate_file_name : M State str :=
  text <- attr prompt ;;
  let prompt_for_file_name :=
    lit "Based on the provided Python code description, generate a meaningful and contextually appropriate file "
    ++ lit "name that ends with '.py'. The file name should reflect the primary functionality of the code. Here is "
    ++ lit "the input: " ++ text in
  generated_file_name <- _get_completion prompt_for_file_name ∅ ;;
  ret (replace [34] []
        (replace [] []
          (strip (List.hd [] (split NL (strip generated_file_name)))))).

Definition _write_code_to_file : M State unit :=
  let path : str := [] in
  name <- _generate_file_name ;;
  set_self (with_file_name name) ;;
  saved_path <-
    try_except
      (root <- attr root_directory ;;
       let full_path := path_join root path in
       liftP (os_makedirs full_path) ;;
       let saved_path := path_join full_path name in
       _print_progress_bar (BLUE ++ lit "Writing code to " ++ saved_path ++ RESET) ;;
       ret saved_path)
      (fun e =>
         raise (Exc Exception
           (RED ++ lit "Cannot create directory: " ++ exc_str e ++ RESET))) ;;
  code <- attr generated_code ;;
  if nonempty code
  then
    liftP (write_file saved_path code) ;;
    liftP (print (GREEN ++ CHECK_MARK ++ lit " Code written to " ++ name ++ RESET))
  else raise (Exc Exception (RED ++ lit "No code generated yet" ++ RESET)).

Definition pip_install (module : str) : list str :=
  [sys_executable; lit "-m"; lit "pip"; lit "install"; module].

Definition pip_uninstall (module : str) : list str :=
  [sys_executable; lit "-m"; lit "pip"; lit "uninstall"; module; lit "-y"].

Definition _run_generated_code (cleanup_installed_module : bool) : M State str :=
  root <- attr root_directory ;;
  name <- attr file_name ;;
  let full_path := path_join root name in
  found <- liftP (os_path_exists full_path) ;;
  if negb found
  then
    raise (Exc FileNotFoundError
      (RED ++ lit "Error: The file " ++ full_path ++ lit " does not exist!" ++ RESET))
  else
    _print_progress_bar (YELLOW ++ lit "Running script " ++ BLUE ++ full_path ++ RESET) ;;
    try_except
      (result <- liftP (run [sys_executable; full_path]) ;;
       if negb (returncode result =? 0)%Z
       then
         let script_error : M State str :=
           raise (Exc Exception
             (RED ++ lit "Script error:" ++ NL ++ stderr result ++ RESET)) in
         if contains (lit "ModuleNotFoundError") (stderr result)
         then
           match Re.search (stderr result) with
           | Some missing_module =>
               liftP (print (YELLOW ++ lit "Module '" ++ missing_module
                             ++ lit "' not found. Installing..." ++ RESET)) ;;
               install_result <- liftP (run (pip_install missing_module)) ;;
               if (returncode install_result =? 0)%Z
               then
                 liftP (print (GREEN ++ lit "Module '" ++ missing_module
                               ++ lit "' installed. Re-running script..." ++ RESET)) ;;
                 result <- liftP (run [sys_executable; full_path]) ;;
                 if negb (returncode result =? 0)%Z
                 then
                   raise (Exc Exception
                     (RED ++ lit "Error after installing " ++ missing_module
                      ++ lit ":" ++ RESET ++ NL ++ stderr result))
                 else
                   (if cleanup_installed_module
                    then
                      liftP (print (YELLOW ++ lit "Cleaning up '" ++ missing_module
                                    ++ lit "'..." ++ RESET)) ;;
                      uninstall_result <- liftP (run (pip_uninstall missing_module)) ;;
                      if (returncode uninstall_result =? 0)%Z
                      then
                        liftP (print (GREEN ++ lit "Uninstalled '" ++ missing_module
                                      ++ lit "'" ++ RESET))
                      else
                        liftP (print (RED ++ lit "Failed to uninstall '" ++ missing_module
                                      ++ lit "':" ++ NL ++ stderr uninstall_result
                                      ++ RESET))
                    else ret tt) ;;
                   ret (stdout result)
               else
                 raise (Exc Exception
                   (RED ++ lit "Failed to install '" ++ missing_module ++ lit "':"
                    ++ NL ++ stderr install_result ++ RESET))
           | None => script_error
           end
         else script_error
       else
         liftP (print (GREEN ++ lit "Script executed successfully!" ++ RESET)) ;;
         ret (stdout result))
      (fun e =>
         raise (Exc Exception (RED ++ lit "Cannot run code: " ++ exc_str e ++ RESET))).

Definition generate_code (prompt_input : str)
    (write_code_to_file run_code cleanup_installed_module cleanup_generated_file : bool)
    : M State str :=
  let run_code := if negb write_code_to_file then false else run_code in
  text <- lift_result (generate_code_prompt prompt_input) ;;
  set_self (with_prompt text) ;;
  _print_progress_bar (YELLOW ++ lit "Generating code from prompt..." ++ RESET) ;;
  code <- _get_completion text ∅ ;;
  set_self (with_generated_code code) ;;
  set_self (with_generated_code (_remove_python_prefix code)) ;;
  liftP (print (GREEN ++ CHECK_MARK ++ lit " Code generation completed." ++ RESET)) ;;
  if run_code
  then
    _write_code_to_file ;;
    output <- _run_generated_code cleanup_installed_module ;;
    (if cleanup_generated_file
     then
       root <- attr root_directory ;;
       name <- attr file_name ;;
       let generated_file_path := path_join root name in
       try_except
         (liftP (os_remove generated_file_path) ;;
          liftP (print (YELLOW ++ BROOM ++ lit " Generated file '" ++ name
                        ++ lit "' deleted successfully." ++ RESET)))
         (fun e =>
            liftP (print (RED ++ WARNING_SIGN
                          ++ lit " Warning: Could not delete generated file '" ++ name
                          ++ lit "': " ++ exc_str e ++ RESET)))
     else ret tt) ;;
    code <- attr generated_code ;;
    ret (if nonempty output then output else code)
  else attr generated_code.

(** *** Notions used to state the properties *)

(** The text of a blocking response: its first choice's message content. *)
Definition completion_text (c : ChatCompletion) : option str :=
  match choices c with
  | choice :: _ => message_content choice
  | [] => None
  end.

(** The text a list of chunks carries: the content deltas of the first
    choices, in order (a missing delta adds nothing). *)
Fixpoint deltas_text (cs : list ChatCompletionChunk) : option str :=
  match cs with
  | [] => Some []
  | chunk :: cs' =>
      match chunk_choices chunk, deltas_text cs' with
      | choice :: _, Some t => Some (default [] (delta_content choice) ++ t)
      | _, _ => None
      end
  end.

(** The text of a streamed response that arrives whole. *)
Definition stream_text (s : Stream) : option str :=
  match stream_error s with
  | Some _ => None
  | None => deltas_text (chunks s)
  end.

(** The blocking and the streamed response carry the same text. *)
Definition same_response (c : ChatCompletion) (s : Stream) : Prop :=
  exists text, completion_text c = Some text /\ stream_text s = Some text.

(** The command lines of the child processes in a trace, oldest first. *)
Definition child_processes (t : list event) : list (list str) :=
  omap (fun e => match e with EvRun argv => Some argv | _ => None end) t.

(** The system calls on files in a trace. *)
Definition file_calls (t : list event) : list syscall :=
  omap (fun e => match e with EvSys c => Some c | _ => None end) t.

(** A command line of the package installer's [install] subcommand. *)
Definition is_pip_install (argv : list str) : bool :=
  match argv with
  | [exe; a; b; c; _] =>
      bool_decide (exe = sys_executable /\ a = lit "-m" /\ b = lit "pip"
                   /\ c = lit "install")
  | _ => false
  end.

(** The registry holds the providers of the table of [config.py]: true of
    the class attribute as defined, and kept by [register_provider]. *)
Definition builtin_registered (p : Proc) : Prop :=
  forall k, dict_mem k AI_PROVIDERS = true -> dict_mem k (_providers p) = true.

(** No usable key is configured for a provider. *)
Definition no_api_key (name : str) : Prop :=
  or_else (dict_get name (API_KEYS cfg)) [] = [].

(** The check of the credentials is answered: the request that
    [validate_credentials] sends gets a response whose first choice has a
    content. *)
Definition credentials_accepted (provider : Provider) (w : World) : bool :=
  match (chat_create (_client provider)
           (request_params provider (lit "Hello") false {[ lit "max_tokens" := PInt 5 ]})
           (ext w)).1 with
  | Ok completion => bool_decide (is_Some (completion_text completion))
  | Raise _ => false
  end.

(** The path of the persisted artifact of an object. *)
Definition artifact_path (a : Assistant) : str :=
  path_join (root_directory a) (file_name a).

(** The steps of [generate_code], named so that the state between them
    can be spoken of.  [generation] is the function up to the test of
    [run_code]: the prompt, the completion and the removal of the prefix;
    its value is the completion as the provider returned it. *)
Definition generation (prompt_input : str) : M State str :=
  text <- lift_result (generate_code_prompt prompt_input) ;;
  set_self (with_prompt text) ;;
  _print_progress_bar (YELLOW ++ lit "Generating code from prompt..." ++ RESET) ;;
  code <- _get_completion text ∅ ;;
  set_self (with_generated_code code) ;;
  set_self (with_generated_code (_remove_python_prefix code)) ;;
  liftP (print (GREEN ++ CHECK_MARK ++ lit " Code generation completed." ++ RESET)) ;;
  ret code.

(** [finish] is what [generate_code] does once the loop has returned
    [output]: the removal of the artifact, if asked for, and the choice of
    the value. *)
Definition finish (cleanup_generated_file : bool) (output : str) : M State str :=
  (if cleanup_generated_file
   then
     root <- attr root_directory ;;
     name <- attr file_name ;;
     let generated_file_path := path_join root name in
     try_except
       (liftP (os_remove generated_file_path) ;;
        liftP (print (YELLOW ++ BROOM ++ lit " Generated file '" ++ name
                      ++ lit "' deleted successfully." ++ RESET)))
       (fun e =>
          liftP (print (RED ++ WARNING_SIGN
                        ++ lit " Warning: Could not delete generated file '" ++ name
                        ++ lit "': " ++ exc_str e ++ RESET)))
   else ret tt) ;;
  code <- attr generated_code ;;
  ret (if nonempty output then output else code).

(** A command line of the package installer's [uninstall] subcommand. *)
Definition is_pip_uninstall (argv : list str) : bool :=
  match argv with
  | [exe; a; b; c; _; y] =>
      bool_decide (exe = sys_executable /\ a = lit "-m" /\ b = lit "pip"
                   /\ c = lit "uninstall" /\ y = lit "-y")
  | _ => false
  end.

(** The value of an environment variable when it is set and not empty. *)
Definition env_key (getenv : str -> option str) (var : str) : option str :=
  match getenv var with
  | Some ((_ :: _) as k) => Some k
  | _ => None
  end.

(** * Properties *)

(** ** The missing-module pattern *)

Lemma strip_prefix_spec (p s r : str) :
  Re.strip_prefix p s = Some r <-> s = p ++ r.
Proof.
  revert s. induction p as [|a p IH]; intros s; simpl.
  - split; [intros [= ->]; reflexivity | intros ->; reflexivity].
  - destruct s as [|b s]; [split; [discriminate | intros [=]]|].
    destruct (N.eqb_spec a b) as [->|Hne].
    + rewrite IH. split; [intros ->; reflexivity | intros [= ->]; reflexivity].
    + split; [discriminate | intros [= E _]; congruence].
Qed.

Lemma span_name_spec (s m r : str) :
  Re.span_name s = (m, r) ->
  s = m ++ r /\ (Re.quote ∉ m) /\ (r = [] \/ exists r', r = Re.quote :: r').
Proof.
  revert m r. induction s as [|c s IH]; intros m r; simpl.
  - intros [= <- <-]. split; [reflexivity|]. split; [apply not_elem_of_nil | left; reflexivity].
  - destruct (N.eqb_spec c Re.quote) as [->|Hne].
    + intros [= <- <-]. split; [reflexivity|].
      split; [apply not_elem_of_nil | right; eexists; reflexivity].
    + destruct (Re.span_name s) as [m' r'] eqn:E. intros [= <- <-].
      destruct (IH m' r' eq_refl) as (-> & Hm & Hr).
      split; [reflexivity|]. split; [|exact Hr].
      intros [?|?]%elem_of_cons; [congruence | contradiction].
Qed.

Lemma span_name_app (m post : str) :
  (Re.quote ∉ m) -> Re.span_name (m ++ Re.quote :: post) = (m, Re.quote :: post).
Proof.
  induction m as [|c m IH]; intros Hm; simpl.
  - reflexivity.
  - apply not_elem_of_cons in Hm as [Hc Hm].
    destruct (N.eqb_spec c Re.quote) as [->|_]; [congruence|].
    rewrite (IH Hm). reflexivity.
Qed.

Lemma match_at_spec (s m : str) :
  Re.match_at s = Some m <->
  exists post, s = Re.needle ++ m ++ Re.quote :: post /\ m <> [] /\ (Re.quote ∉ m).
Proof.
  unfold Re.match_at. split.
  - destruct (Re.strip_prefix Re.needle s) as [rest|] eqn:E; [|discriminate].
    apply strip_prefix_spec in E as ->.
    destruct (Re.span_name rest) as [m' r] eqn:E.
    apply span_name_spec in E as (-> & Hm & Hr).
    destruct m' as [|c m']; [discriminate|].
    destruct r as [|q r]; [discriminate|].
    destruct Hr as [?|[r' [= -> ->]]]; [discriminate|].
    rewrite N.eqb_refl. intros [= <-]. exists r'. split; [reflexivity|].
    split; [discriminate | exact Hm].
  - intros (post & -> & Hne & Hm).
    assert (Re.strip_prefix Re.needle (Re.needle ++ m ++ Re.quote :: post)
            = Some (m ++ Re.quote :: post)) as -> by (apply strip_prefix_spec; reflexivity).
    rewrite (span_name_app _ _ Hm). destruct m; [congruence|].
    reflexivity.
Qed.

(** A match found by the search is an occurrence of the pattern. *)
Lemma search_occurs (s m : str) : Re.search s = Some m -> Re.occurs m s.
Proof.
  induction s as [|c s IH]; [discriminate|]. cbn [Re.search].
  - destruct (Re.match_at (c :: s)) eqn:E.
    + intros [= ->]. apply match_at_spec in E as (post & E & ? & ?).
      exists [], post. auto.
    + intros H. destruct (IH H) as (pre & post & -> & ? & ?).
      exists (c :: pre), post. auto.
Qed.

(** X2: the search finds nothing exactly when the pattern occurs nowhere in
    the error stream. *)
Lemma search_None (s : str) :
  Re.search s = None <-> forall m, ~ Re.occurs m s.
Proof.
  split.
  - induction s as [|c s IH]; cbn [Re.search].
    + intros _ m (pre & post & H & ? & ?). destruct pre; discriminate.
    + destruct (Re.match_at (c :: s)) eqn:E; [discriminate|].
      intros H m (pre & post & Hs & ? & ?). destruct pre as [|c' pre].
      * assert (Re.match_at (c :: s) = Some m) as E' by (apply match_at_spec; eauto).
        congruence.
      * injection Hs as -> ->. apply (IH H m). exists pre, post. auto.
  - intros H. destruct (Re.search s) as [m|] eqn:E; [|reflexivity].
    destruct (H m (search_occurs _ _ E)).
Qed.

(** Unfolding of the monad's operations and of the primitive actions, and
    of the projections on the state records they build. *)
Ltac mrun :=
  cbv beta iota zeta delta
    [bind ret raise try_except gets modify lift_result log print set_world run
     upstream syscall_allowed liftP attr set_self
     with_provider_name with_kwargs with__provider with_generated_code with_prompt
     with_file_name with_root_directory];
  cbn [world _providers next_id trace ext fs cwd self proc fst snd
       provider_name model temperature max_tokens top_p kwargs provider_config
       _provider generated_code prompt file_name root_directory].

(** Case analysis on what the next step of a run depends on: the innermost
    scrutinee that stands in the way. *)
Ltac innermost x :=
  lazymatch x with
  | context [match ?y with _ => _ end] => innermost y
  | context [if ?y then _ else _] => innermost y
  | _ => destruct x eqn:?
  end.

Ltac mcase :=
  lazymatch goal with
  | |- context [match ?x with _ => _ end] => innermost x
  | |- context [if ?x then _ else _] => innermost x
  end.

Ltac mrun_in H :=
  cbv beta iota zeta delta
    [bind ret raise try_except gets modify lift_result log print set_world run
     upstream syscall_allowed liftP attr set_self
     with_provider_name with_kwargs with__provider with_generated_code with_prompt
     with_file_name with_root_directory] in H;
  cbn [world _providers next_id trace ext fs cwd self proc fst snd
       provider_name model temperature max_tokens top_p kwargs provider_config
       _provider generated_code prompt file_name root_directory] in H.

(** ** Blocking and streaming completion *)

Lemma stream_chunks_text (cs : list ChatCompletionChunk) (t : str) :
  deltas_text cs = Some t ->
  exists ys, stream_chunks cs None = (ys, None) /\ concat ys = t.
Proof.
  revert t. induction cs as [|chunk cs IH]; intros t; simpl.
  - intros [= <-]. exists []. split; reflexivity.
  - destruct (chunk_choices chunk) as [|choice rest]; [discriminate|].
    destruct (deltas_text cs) as [t'|]; [|discriminate].
    destruct (IH t' eq_refl) as (ys & -> & Hys). intros [= <-].
    destruct (delta_content choice) as [[|ch text]|]; simpl.
    + exists ys. split; [reflexivity | exact Hys].
    + exists ((ch :: text) :: ys). split; [reflexivity|]. simpl. rewrite Hys. reflexivity.
    + exists ys. split; [reflexivity | exact Hys].
Qed.

(** C5 (as amended): for the same upstream text, the chunks of the
    streaming variant, concatenated and then trimmed of surrounding
    whitespace, are the string the blocking variant returns. *)
Theorem streaming_trimmed_is_blocking
    (self : Provider) (text : str) (kw : gmap str pyval) (p p' : Proc)
    (c : ChatCompletion) (s : Stream) (e1 e2 : Ext) :
  chat_create (_client self) (request_params self text false kw) (ext (world p))
    = (Ok c, e1) ->
  chat_create_stream (_client self) (request_params self text true kw) (ext (world p'))
    = (Ok s, e2) ->
  same_response c s ->
  exists ys,
    (get_streaming_completion self text kw p').1 = (ys, None)
    /\ (get_completion self text kw p).1 = Ok (strip (concat ys)).
Proof.
  intros Hc Hs (t & Ht & Hst).
  unfold stream_text in Hst. destruct (stream_error s) eqn:Herr; [discriminate|].
  destruct (stream_chunks_text _ _ Hst) as (ys & Hys & <-).
  exists ys. split.
  - unfold get_streaming_completion. mrun. rewrite Hs. mrun.
    rewrite Herr, Hys. reflexivity.
  - unfold get_completion. mrun. rewrite Hc. mrun.
    unfold completion_text in Ht. destruct (choices c) as [|choice rest]; [discriminate|].
    rewrite Ht. reflexivity.
Qed.

(** ** The provider table and the registry *)

Lemma dict_mem_set {V} (k k' : str) (v : V) (d : list (str * V)) :
  dict_mem k d = true -> dict_mem k (dict_set k' v d) = true.
Proof.
  unfold dict_mem. induction d as [|[k0 v0] d IH]; simpl; [discriminate|].
  destruct (bool_decide (k0 = k)) eqn:E0.
  - apply bool_decide_eq_true in E0 as ->. intros _.
    destruct (bool_decide (k = k')) eqn:E1; simpl.
    + apply bool_decide_eq_true in E1 as ->. rewrite bool_decide_eq_true_2; reflexivity.
    + rewrite bool_decide_eq_true_2; reflexivity.
  - intros H. destruct (bool_decide (k0 = k')) eqn:E1; simpl.
    + apply bool_decide_eq_true in E1 as ->. rewrite E0. exact H.
    + rewrite E0. exact (IH H).
Qed.

Lemma builtin_registered_initial (w : World) (n : nat) (t : list event) :
  builtin_registered
    {| world := w; _providers := initial_providers; next_id := n; trace := t |}.
Proof.
  intros k. unfold dict_mem, AI_PROVIDERS, initial_providers. cbn [dict_get _providers].
  destruct (bool_decide (lit "groq" = k)); [reflexivity|].
  destruct (bool_decide (lit "openai" = k)); [reflexivity | discriminate].
Qed.

Lemma builtin_registered_register (name : str) (c : class_argument) (p : Proc) :
  builtin_registered p -> builtin_registered (register_provider name c p).2.
Proof. intros H k Hk. destruct c; [apply dict_mem_set|..]; apply H, Hk. Qed.

Lemma or_else_nonempty (name d : str) : name <> [] -> or_else (Some name) d = name.
Proof. destruct name; [congruence | reflexivity]. Qed.

(** C7 (as amended): a non-empty name that is not in the registry is
    refused with a [ValueError], and nothing is created; the message lists
    the names of the provider table, which are the registered names when no
    provider was registered beyond the built-in ones. *)
Theorem unknown_provider_is_refused
    (name : str) (kw : gmap str pyval) (p : Proc) :
  name <> [] ->
  builtin_registered p ->
  dict_mem name (_providers p) = false ->
  exists msg,
    get_provider (Some name) kw p = (Raise (Exc ValueError msg), p)
    /\ msg = lit "Unknown provider: " ++ name ++ lit ". Available: "
              ++ repr_list isprintable (keys AI_PROVIDERS)
    /\ (keys (_providers p) = keys initial_providers ->
        msg = lit "Unknown provider: " ++ name ++ lit ". Available: "
              ++ repr_list isprintable (keys (_providers p))).
Proof.
  intros Hne Hreg Hnot.
  assert (dict_get name AI_PROVIDERS = None) as Htab.
  { destruct (dict_get name AI_PROVIDERS) eqn:E; [|reflexivity].
    assert (dict_mem name AI_PROVIDERS = true) as Hin by (unfold dict_mem; rewrite E; reflexivity).
    apply Hreg in Hin. congruence. }
  eexists. split; [|split].
  - unfold get_provider, get_provider_config. rewrite (or_else_nonempty _ _ Hne), Htab.
    mrun. reflexivity.
  - reflexivity.
  - intros ->. reflexivity.
Qed.

(** C8 (as amended): for a provider of the table without a configured key,
    the factory and the assistant's constructor both fail with a
    [ValueError] that names the provider, and leave the process as it was:
    no provider instance and no client is created. *)
Theorem missing_api_key_is_refused
    (name : str) (entry : gmap str str) (kw : gmap str pyval) (p : Proc)
    (m : option str) (t : Q) (mt : Z) (tp : Q) :
  dict_get name AI_PROVIDERS = Some entry ->
  no_api_key name ->
  get_provider (Some name) kw p
    = (Raise (Exc ValueError (lit "API key not found for provider: " ++ name)), p)
  /\ ChatPython__init__ (Some name) m t mt tp kw p
    = (Raise (Exc ValueError (lit "API key not found for provider: " ++ name)), p).
Proof.
  intros Htab Hkey.
  assert (name <> []) as Hne by (intros ->; discriminate).
  assert (get_provider_config isprintable cfg (Some name)
          = Raise (Exc ValueError (lit "API key not found for provider: " ++ name))) as Hcfg.
  { unfold get_provider_config. rewrite (or_else_nonempty _ _ Hne), Htab.
    unfold no_api_key in Hkey.
    destruct (dict_get name (API_KEYS cfg)) as [[|c k]|]; try reflexivity. discriminate. }
  split.
  - unfold get_provider. rewrite Hcfg. mrun. reflexivity.
  - unfold ChatPython__init__, BaseAssistant__init__.
    rewrite (or_else_nonempty _ _ Hne), Hcfg. mrun. reflexivity.
Qed.

(** X1: after a switch that succeeds, the provider of the object is a new one,
    with a client that did not exist before, and the next completion is
    requested through that client and no other. *)
Theorem switch_builds_a_new_client
    (name : str) (kw : gmap str pyval) (s s' : State) :
  switch_provider name kw s = (Ok tt, s') ->
  exists provider,
    _provider (self s') = Some provider
    /\ client_id (_client provider) = next_id (proc s)
    /\ next_id (proc s') = S (next_id (proc s))
    /\ provider_name (self s') = name
    /\ forall text more,
         trace (proc (_get_completion text more s').2)
         = trace (proc s')
           ++ [EvCreate (_client provider)
                 (request_params provider text false (completion_kwargs (self s') more))].
Proof.
  unfold switch_provider, _initialize_provider, get_provider, factory_available_providers,
    Provider__init__, new_client.
  mrun. repeat (mcase; mrun); intros [= <-]; try discriminate.
  all: eexists; split; [reflexivity|]; repeat split.
  all: intros text more; unfold _get_completion, get_completion; mrun;
    repeat (mcase; mrun); reflexivity.
Qed.

(** X3: validation reports a failure as [False] and never raises.  The
    provider's check of its credentials is [True] exactly when its test
    request is answered with a content, and [False] when the request fails
    or the response has no choice or no content; the factory's check of a
    provider is [False] when the provider cannot be built, and the
    provider's own check otherwise. *)
Theorem validation_reports_errors_as_false :
  (forall (provider : Provider) (p : Proc),
     (validate_credentials provider p).1
     = Ok (credentials_accepted provider (world p)))
  /\ (forall (name : option str) (p : Proc),
       (validate_provider name p).1
       = Ok (match get_provider name ∅ p with
             | (Ok provider, p') => credentials_accepted provider (world p')
             | (Raise _, _) => false
             end)).
Proof.
  assert (forall (provider : Provider) (p : Proc),
            (validate_credentials provider p).1
            = Ok (credentials_accepted provider (world p))) as Hcred.
  { intros provider p.
    unfold validate_credentials, get_completion, credentials_accepted, completion_text.
    mrun.
    destruct (chat_create (_client provider)
                (request_params provider (lit "Hello") false {[ lit "max_tokens" := PInt 5 ]})
                (ext (world p))) as [[completion|e] e']; mrun; [|reflexivity].
    destruct (choices completion) as [|choice rest]; mrun;
      [rewrite bool_decide_eq_false_2 by (intros [? [=]]); reflexivity|].
    destruct (message_content choice) as [content|]; mrun.
    - rewrite bool_decide_eq_true_2 by eauto. reflexivity.
    - rewrite bool_decide_eq_false_2 by (intros [? [=]]). reflexivity. }
  split; [exact Hcred|].
  intros name p. unfold validate_provider. mrun.
  destruct (get_provider name ∅ p) as [[provider|e] p']; mrun; [|reflexivity].
  specialize (Hcred provider p').
  destruct (validate_credentials provider p') as [[b|e] p'']; cbn [fst] in Hcred;
    [|discriminate].
  mrun. exact Hcred.
Qed.

(** ** The execution loop *)

Lemma child_processes_app (t1 t2 : list event) :
  child_processes (t1 ++ t2) = child_processes t1 ++ child_processes t2.
Proof. apply omap_app. Qed.

Lemma file_calls_app (t1 t2 : list event) :
  file_calls (t1 ++ t2) = file_calls t1 ++ file_calls t2.
Proof. apply omap_app. Qed.

(** C4: a failed run whose error stream does not match the pattern ends the
    loop with an error that carries that error stream, and the script is the
    only child process the loop started: the installer is not invoked. *)
Theorem unmatched_failure_is_reported
    (s : State) (cim : bool) (r1 : CompletedProcess) (w1 : World) :
  is_Some (fs (world (proc s)) !! artifact_path (self s)) ->
  subprocess_run [sys_executable; artifact_path (self s)] (world (proc s)) = (Ok r1, w1) ->
  returncode r1 <> 0%Z ->
  Re.search (stderr r1) = None ->
  (_run_generated_code cim s).1
    = Raise (Exc Exception
        (RED ++ lit "Cannot run code: "
         ++ (RED ++ lit "Script error:" ++ NL ++ stderr r1 ++ RESET) ++ RESET))
  /\ child_processes (trace (proc (_run_generated_code cim s).2))
     = child_processes (trace (proc s)) ++ [[sys_executable; artifact_path (self s)]].
Proof.
  intros Hfile Hrun Hrc Hre. unfold artifact_path in *.
  unfold _run_generated_code, _print_progress_bar, os_path_exists, path_exists. mrun.
  rewrite (bool_decide_eq_true_2 _ Hfile). cbn [orb negb]. mrun. rewrite Hrun. mrun.
  destruct (Z.eqb_spec (returncode r1) 0) as [?|_]; [contradiction|]. cbn [negb].
  rewrite Hre.
  destruct (contains (lit "ModuleNotFoundError") (stderr r1)); mrun;
    (split; [reflexivity | rewrite !child_processes_app, <- app_assoc; reflexivity]).
Qed.


(** What a run added to the child processes of a trace, read off the
    trace the run left. *)
Ltac trace_added :=
  rewrite ?child_processes_app; cbn [child_processes omap list_omap];
  rewrite <- ?app_assoc; cbn [app];
  first [ reflexivity | rewrite <- (app_nil_r (child_processes _)) at 1; reflexivity ].

Lemma at_most_one_install (s : State) (cim : bool) :
  exists added,
    child_processes (trace (proc (_run_generated_code cim s).2))
      = child_processes (trace (proc s)) ++ added
    /\ (length (List.filter is_pip_install added) <= 1)%nat.
Proof.
  unfold _run_generated_code, _print_progress_bar, os_path_exists, path_exists.
  repeat (mrun; mcase); mrun.
  all: eexists; split; [trace_added|].
  all: unfold pip_install, pip_uninstall; cbn [List.filter is_pip_install].
  all: repeat match goal with |- context [bool_decide ?P] => destruct (bool_decide P) end.
  all: cbn [length]; lia.
Qed.

(** Use of what is known about the next step of a run. *)
Ltac muse :=
  match goal with
  | H : subprocess_run ?a ?w = _ |- context [subprocess_run ?a ?w] => rewrite H
  | H : Re.search ?x = _ |- context [Re.search ?x] => rewrite H
  | H : contains ?a ?x = _ |- context [contains ?a ?x] => rewrite H
  | H : Z.eqb ?x ?y = _ |- context [Z.eqb ?x ?y] => rewrite H
  | H : is_Some ?o |- context [bool_decide (is_Some ?o)] =>
      rewrite (bool_decide_eq_true_2 _ H)
  | |- context [true || _] => cbn [orb]
  | |- context [negb true] => cbn [negb]
  | |- context [negb false] => cbn [negb]
  end.

(** C3: the loop never starts the installer more than once; and when the
    run after a successful install fails again, whatever its error stream
    says, the loop ends with an error that carries that error stream, having
    started the script, the installer and the script again, and nothing
    else. *)
Theorem second_failure_is_final :
  (forall (s : State) (cim : bool),
     exists added,
       child_processes (trace (proc (_run_generated_code cim s).2))
         = child_processes (trace (proc s)) ++ added
       /\ (length (List.filter is_pip_install added) <= 1)%nat)
  /\ (forall (s : State) (cim : bool) (m : str) (r1 ri r2 : CompletedProcess)
        (w1 w2 w3 : World),
       is_Some (fs (world (proc s)) !! artifact_path (self s)) ->
       subprocess_run [sys_executable; artifact_path (self s)] (world (proc s))
         = (Ok r1, w1) ->
       returncode r1 <> 0%Z ->
       contains (lit "ModuleNotFoundError") (stderr r1) = true ->
       Re.search (stderr r1) = Some m ->
       subprocess_run (pip_install m) w1 = (Ok ri, w2) ->
       returncode ri = 0%Z ->
       subprocess_run [sys_executable; artifact_path (self s)] w2 = (Ok r2, w3) ->
       returncode r2 <> 0%Z ->
       (_run_generated_code cim s).1
         = Raise (Exc Exception
             (RED ++ lit "Cannot run code: "
              ++ (RED ++ lit "Error after installing " ++ m ++ lit ":" ++ RESET
                  ++ NL ++ stderr r2) ++ RESET))
       /\ child_processes (trace (proc (_run_generated_code cim s).2))
          = child_processes (trace (proc s))
            ++ [[sys_executable; artifact_path (self s)]; pip_install m;
                [sys_executable; artifact_path (self s)]]).
Proof.
  split; [exact at_most_one_install|].
  intros s cim m r1 ri r2 w1 w2 w3 Hfile Hrun1 Hrc1 Hmnf Hre Hrun2 Hrc2 Hrun3 Hrc3.
  apply Z.eqb_neq in Hrc1, Hrc3. apply Z.eqb_eq in Hrc2. unfold artifact_path in *.
  unfold _run_generated_code, _print_progress_bar, os_path_exists, path_exists.
  repeat (mrun; muse). mrun.
  split; [reflexivity | trace_added].
Qed.

(** C2 (as amended): when the first run fails with an error stream that
    holds [ModuleNotFoundError] and in which the pattern finds the name [m],
    the loop starts the installer for [m]; when that exits with status 0 it
    runs the script once more, and when this run exits with status 0 (and
    the uninstall step, if asked for, completes) the loop returns the output
    of this second run. *)
Theorem missing_module_is_installed_and_retried
    (s : State) (cim : bool) (m : str) (r1 ri r2 : CompletedProcess)
    (w1 w2 w3 : World) :
  is_Some (fs (world (proc s)) !! artifact_path (self s)) ->
  subprocess_run [sys_executable; artifact_path (self s)] (world (proc s))
    = (Ok r1, w1) ->
  returncode r1 <> 0%Z ->
  contains (lit "ModuleNotFoundError") (stderr r1) = true ->
  Re.search (stderr r1) = Some m ->
  subprocess_run (pip_install m) w1 = (Ok ri, w2) ->
  returncode ri = 0%Z ->
  subprocess_run [sys_executable; artifact_path (self s)] w2 = (Ok r2, w3) ->
  returncode r2 = 0%Z ->
  (cim = true -> is_ok (subprocess_run (pip_uninstall m) w3).1 = true) ->
  (_run_generated_code cim s).1 = Ok (stdout r2)
  /\ child_processes (trace (proc (_run_generated_code cim s).2))
     = child_processes (trace (proc s))
       ++ [[sys_executable; artifact_path (self s)]; pip_install m;
           [sys_executable; artifact_path (self s)]]
       ++ (if cim then [pip_uninstall m] else []).
Proof.
  intros Hfile Hrun1 Hrc1 Hmnf Hre Hrun2 Hrc2 Hrun3 Hrc3 Hun.
  apply Z.eqb_neq in Hrc1. apply Z.eqb_eq in Hrc2, Hrc3. unfold artifact_path in *.
  unfold _run_generated_code, _print_progress_bar, os_path_exists, path_exists.
  repeat (mrun; muse). mrun.
  destruct cim.
  - specialize (Hun eq_refl). mrun.
    destruct (subprocess_run (pip_uninstall m) w3) as [[ru|e] w4]; [|discriminate].
    mrun. destruct (returncode ru =? 0)%Z; mrun; (split; [reflexivity | trace_added]).
  - mrun. split; [reflexivity | trace_added].
Qed.

(** ** Strings, as the class [ChatPython] uses them *)

Lemma replace_char (c : N) (s : str) :
  replace [c] [] s = List.filter (fun x => negb (c =? x)) s.
Proof.
  unfold replace. induction s as [|x s IH]; [reflexivity|].
  cbn [replace_from startswith length Nat.pred List.filter app].
  rewrite andb_true_r. destruct (c =? x); cbn [negb app]; rewrite IH; reflexivity.
Qed.

Lemma replace_nothing (s : str) : replace [] [] s = s.
Proof.
  unfold replace. cbn [app]. induction s as [|x s IH]; [reflexivity|].
  cbn [flat_map app]. rewrite IH. reflexivity.
Qed.

Lemma elem_of_replace_char (c x : N) (s : str) :
  x ∈ replace [c] [] s <-> x ∈ s /\ x <> c.
Proof.
  rewrite replace_char, list_elem_of_In, filter_In, <- list_elem_of_In.
  rewrite negb_true_iff, N.eqb_neq. split; intros [? ?]; split; congruence.
Qed.

Lemma elem_of_rev (x : N) (s : str) : x ∈ rev s -> x ∈ s.
Proof. rewrite !list_elem_of_In. apply in_rev. Qed.

Lemma elem_of_drop_str (x : N) (n : nat) (s : str) : x ∈ drop n s -> x ∈ s.
Proof.
  revert n. induction s as [|c s IH]; intros [|n]; cbn [drop]; try exact id.
  intros H. right. exact (IH n H).
Qed.

Lemma elem_of_lstrip (x : N) (s : str) : x ∈ lstrip s -> x ∈ s.
Proof.
  induction s as [|c s IH]; cbn [lstrip]; [exact id|].
  destruct (isspace c); [intros H; right; exact (IH H) | exact id].
Qed.

Lemma elem_of_strip (x : N) (s : str) : x ∈ strip s -> x ∈ s.
Proof.
  unfold strip, rstrip. intros H%elem_of_rev%elem_of_lstrip%elem_of_rev%elem_of_lstrip.
  exact H.
Qed.

Lemma elem_of_splitlines_from (x : N) (line : str) (n : nat) :
  forall s cur,
    (length s <= n)%nat -> line ∈ splitlines_from cur s -> x ∈ line ->
    x ∈ cur \/ x ∈ s.
Proof.
  induction n as [|n IH]; intros s cur Hlen.
  - destruct s; [|cbn in Hlen; lia]. cbn [splitlines_from].
    destruct cur; [intros H; inversion H|].
    intros ->%list_elem_of_singleton Hx%elem_of_rev. left. exact Hx.
  - destruct s as [|c s]; cbn [splitlines_from].
    + destruct cur; [intros H; inversion H|].
      intros ->%list_elem_of_singleton Hx%elem_of_rev. left. exact Hx.
    + cbn [length] in Hlen. destruct (islinebreak c).
      * intros [->|Hin]%elem_of_cons Hx; [left; apply elem_of_rev in Hx; exact Hx|].
        right. right.
        destruct (c =? 13).
        -- destruct s as [|d s'].
           ++ destruct (IH [] [] ltac:(cbn; lia) Hin Hx) as [H|H]; [inversion H | exact H].
           ++ cbn [length] in Hlen. destruct (d =? 10).
              ** destruct (IH s' [] ltac:(lia) Hin Hx) as [H|H]; [inversion H|].
                 right. exact H.
              ** destruct (IH (d :: s') [] ltac:(cbn; lia) Hin Hx) as [H|H];
                   [inversion H | exact H].
        -- destruct (IH s [] ltac:(lia) Hin Hx) as [H|H]; [inversion H | exact H].
      * intros Hin Hx.
        destruct (IH s (c :: cur) ltac:(lia) Hin Hx) as [[->|H]%elem_of_cons|H].
        -- right. left.
        -- left. exact H.
        -- right. right. exact H.
Qed.

Lemma elem_of_join (x : N) (sep : str) (l : list str) :
  x ∈ join sep l -> x ∈ sep \/ exists line, line ∈ l /\ x ∈ line.
Proof.
  induction l as [|a l IH]; cbn [join]; [intros H; inversion H|].
  destruct l as [|b l].
  - intros H. right. exists a. split; [left | exact H].
  - intros [H|[H|H]%elem_of_app]%elem_of_app.
    + right. exists a. split; [left | exact H].
    + left. exact H.
    + destruct (IH H) as [?|(line & Hl & Hx)]; [left; assumption|].
      right. exists line. split; [right; exact Hl | exact Hx].
Qed.

(** X15: the text that [_remove_python_prefix] returns holds no backtick,
    whatever the completion was. *)
Theorem no_backtick_is_left (code : str) : 96 ∉ _remove_python_prefix code.
Proof.
  unfold _remove_python_prefix. change (lit "`") with [96].
  assert (96 ∉ replace [96] [] code) as Hclean
    by (intros [_ H]%elem_of_replace_char; congruence).
  destruct (splitlines (replace [96] [] code)) as [|first rest] eqn:Hlines;
    [exact Hclean|].
  destruct (startswith (lit "python") (strip first)); [|exact Hclean].
  assert (forall line, line ∈ first :: rest -> 96 ∉ line) as Hline.
  { intros line Hin Hx. rewrite <- Hlines in Hin. unfold splitlines in Hin.
    destruct (elem_of_splitlines_from 96 line _ _ [] (Nat.le_refl _) Hin Hx) as [H|H];
      [inversion H | exact (Hclean H)]. }
  intros [H|(line & [->|Hl]%elem_of_cons & Hx)]%elem_of_join.
  - apply list_elem_of_singleton in H. discriminate.
  - apply elem_of_strip in Hx. unfold slice_from in Hx.
    apply (Hline first); [left|]. apply elem_of_strip.
    eapply elem_of_drop_str. exact Hx.
  - apply (Hline line); [right; exact Hl | exact Hx].
Qed.

Lemma splitlines_from_line (line cur rest : str) :
  Forall (fun c => islinebreak c = false) line ->
  splitlines_from cur (line ++ 10 :: rest) = (rev cur ++ line) :: splitlines_from [] rest.
Proof.
  intros Hline. revert cur. induction Hline as [|c line Hc _ IH]; intros cur.
  - cbn [app splitlines_from]. rewrite app_nil_r. reflexivity.
  - cbn [app splitlines_from]. rewrite Hc, IH. cbn [rev]. rewrite <- app_assoc. reflexivity.
Qed.

Lemma splitlines_join (lines : list str) :
  lines <> [] ->
  Forall (Forall (fun c => islinebreak c = false)) lines ->
  splitlines (join NL lines ++ NL) = lines.
Proof.
  unfold splitlines, NL. intros Hne Hlines. induction Hlines as [|l ls Hl Hls IH]; [congruence|].
  destruct ls as [|l2 ls].
  - cbn [join app]. rewrite (splitlines_from_line l [] [] Hl). reflexivity.
  - change (join [10] (l :: l2 :: ls)) with (l ++ [10] ++ join [10] (l2 :: ls)).
    rewrite <- !app_assoc.
    change ([10] ++ join [10] (l2 :: ls) ++ [10]) with (10 :: (join [10] (l2 :: ls) ++ [10])).
    rewrite (splitlines_from_line l [] _ Hl).
    rewrite IH by discriminate. reflexivity.
Qed.

Lemma filter_keeps (f : N -> bool) (s : str) :
  Forall (fun c => f c = true) s -> List.filter f s = s.
Proof.
  induction 1 as [|c s Hc _ IH]; cbn [List.filter]; [reflexivity|].
  rewrite Hc, IH. reflexivity.
Qed.

Lemma Forall_join (P : N -> Prop) (sep : str) (lines : list str) :
  Forall P sep -> Forall (Forall P) lines -> Forall P (join sep lines).
Proof.
  intros Hsep. induction 1 as [|l ls Hl Hls IH]; cbn [join]; [constructor|].
  destruct ls; [exact Hl|]. apply Forall_app. split; [exact Hl|].
  apply Forall_app. split; [exact Hsep | exact IH].
Qed.

(** X16: a completion that is one fenced block marked [python], with a body
    of lines that hold no backtick, comes out as its body after an empty
    first line: the fences and the mark are gone, the lines are kept. *)
Theorem fenced_block_is_unwrapped (lines : list str) :
  lines <> [] ->
  Forall (Forall (fun c => islinebreak c = false /\ c <> 96)) lines ->
  _remove_python_prefix (lit "```python" ++ NL ++ join NL lines ++ NL ++ lit "```")
  = NL ++ join NL lines.
Proof.
  intros Hne Hlines.
  assert (Forall (Forall (fun c => islinebreak c = false)) lines) as Hbreaks.
  { eapply Forall_impl; [exact Hlines|]. intros l Hl.
    eapply Forall_impl; [exact Hl|]. intros c [H _]. exact H. }
  assert (Forall (fun c => negb (96 =? c) = true) (join NL lines)) as Hticks.
  { apply Forall_join; [repeat constructor|].
    eapply Forall_impl; [exact Hlines|]. intros l Hl.
    eapply Forall_impl; [exact Hl|]. intros c [_ H].
    apply negb_true_iff, N.eqb_neq. congruence. }
  unfold _remove_python_prefix. change (lit "`") with [96].
  rewrite replace_char, !List.filter_app, (filter_keeps _ _ Hticks).
  change (List.filter (fun x => negb (96 =? x)) (lit "```python")) with (lit "python").
  change (List.filter (fun x => negb (96 =? x)) NL) with NL.
  change (List.filter (fun x => negb (96 =? x)) (lit "```")) with (@nil N).
  rewrite app_nil_r.
  assert (splitlines (lit "python" ++ NL ++ join NL lines ++ NL) = lit "python" :: lines) as ->.
  { unfold splitlines. change (NL ++ join NL lines ++ NL) with (10 :: (join NL lines ++ NL)).
    rewrite splitlines_from_line by (repeat constructor).
    f_equal. apply splitlines_join; assumption. }
  change (strip (lit "python")) with (lit "python").
  change (startswith (lit "python") (lit "python")) with true. cbv iota.
  change (strip (slice_from (length (lit "python")) (lit "python"))) with (@nil N).
  destruct lines; [congruence | reflexivity].
Qed.

Lemma hd_split_from (c : N) (s cur : str) :
  c ∉ cur -> c ∉ List.hd [] (split_from [c] 0 cur s).
Proof.
  revert cur. induction s as [|x s IH]; intros cur Hcur; cbn [split_from List.hd].
  - intros H%elem_of_rev. exact (Hcur H).
  - cbn [startswith]. rewrite andb_true_r. destruct (N.eqb_spec c x) as [->|Hne].
    + cbn [List.hd]. intros H%elem_of_rev. exact (Hcur H).
    + apply IH. intros [->|H]%elem_of_cons; [congruence | exact (Hcur H)].
Qed.

(** X17: the file name that [_generate_file_name] returns holds no double
    quote and no newline: it is cut from the first line of the completion. *)
Theorem generated_file_name_is_one_line (s s' : State) (name : str) :
  _generate_file_name s = (Ok name, s') ->
  (34 ∉ name) /\ (10 ∉ name).
Proof.
  unfold _generate_file_name. mrun.
  match goal with |- context [_get_completion ?t ∅ ?s0] =>
    destruct (_get_completion t ∅ s0) as [[answer|e] s1] end; mrun; [|discriminate].
  intros H.
  assert (name = replace [34] []
                   (replace [] [] (strip (List.hd [] (split NL (strip answer))))))
    as -> by congruence.
  clear H. rewrite replace_nothing. split.
  - intros [_ H]%elem_of_replace_char. congruence.
  - intros [H _]%elem_of_replace_char. apply elem_of_strip in H.
    revert H. apply (hd_split_from 10). intros H. inversion H.
Qed.

(** What [_remove_python_prefix] returns is made of characters of the
    completion and of newlines, and holds no backtick. *)
Lemma remove_prefix_keeps (code : str) (x : N) :
  x ∈ _remove_python_prefix code -> (x ∈ code \/ x = 10) /\ x <> 96.
Proof.
  unfold _remove_python_prefix. change (lit "`") with [96].
  assert (forall y, y ∈ replace [96] [] code -> (y ∈ code \/ y = 10) /\ y <> 96) as Hclean
    by (intros y [H1 H2]%elem_of_replace_char; auto).
  destruct (splitlines (replace [96] [] code)) as [|first rest] eqn:Hlines;
    [apply Hclean|].
  destruct (startswith (lit "python") (strip first)); [|apply Hclean].
  assert (forall line, line ∈ first :: rest -> x ∈ line -> x ∈ replace [96] [] code)
    as Hline.
  { intros line Hin Hx. rewrite <- Hlines in Hin. unfold splitlines in Hin.
    destruct (elem_of_splitlines_from x line _ _ [] (Nat.le_refl _) Hin Hx) as [H|H];
      [inversion H | exact H]. }
  intros [H|(line & [->|Hl]%elem_of_cons & Hx)]%elem_of_join.
  - apply list_elem_of_singleton in H. subst x. split; [right; reflexivity | discriminate].
  - apply Hclean, (Hline first); [left|]. apply elem_of_strip.
    apply elem_of_strip in Hx. unfold slice_from in Hx.
    eapply elem_of_drop_str. exact Hx.
  - apply Hclean, (Hline line); [right; exact Hl | exact Hx].
Qed.

(** A completion without backticks whose first line does not start with
    [python] is returned as it is. *)
Lemma remove_prefix_plain_text (code : str) :
  96 ∉ code ->
  match splitlines code with
  | first :: _ => startswith (lit "python") (strip first) = false
  | [] => True
  end ->
  _remove_python_prefix code = code.
Proof.
  intros Hticks Hfirst. unfold _remove_python_prefix. change (lit "`") with [96].
  assert (replace [96] [] code = code) as ->.
  { rewrite replace_char. apply filter_keeps. apply Forall_forall. intros c Hc.
    apply negb_true_iff, N.eqb_neq. intros <-. exact (Hticks Hc). }
  destruct (splitlines code) as [|first rest]; [reflexivity|].
  rewrite Hfirst. reflexivity.
Qed.

(** ** [generate_code] *)

(** [generate_code] is its steps, one after the other. *)
Lemma generate_code_steps (input : str) (w r cim cg : bool) (s : State) :
  generate_code input w r cim cg s
  = (generation input ;;
     if w && r
     then _write_code_to_file ;;
          output <- _run_generated_code cim ;;
          finish cg output
     else attr generated_code) s.
Proof.
  unfold generate_code, generation, finish.
  destruct w, r; cbn [negb andb]; repeat (mrun; mcase); reflexivity.
Qed.


(** What a step leaves alone. *)
Ltac frame_added :=
  rewrite ?child_processes_app, ?file_calls_app;
  cbn [child_processes file_calls omap list_omap]; rewrite ?app_nil_r; reflexivity.

Lemma _get_completion_frame (text : str) (kw : gmap str pyval) (s : State) :
  self (_get_completion text kw s).2 = self s
  /\ fs (world (proc (_get_completion text kw s).2)) = fs (world (proc s))
  /\ child_processes (trace (proc (_get_completion text kw s).2))
     = child_processes (trace (proc s))
  /\ file_calls (trace (proc (_get_completion text kw s).2))
     = file_calls (trace (proc s)).
Proof.
  unfold _get_completion, get_completion.
  repeat (mrun; mcase); mrun; repeat split; frame_added.
Qed.

Lemma generation_frame (input : str) (s : State) :
  fs (world (proc (generation input s).2)) = fs (world (proc s))
  /\ child_processes (trace (proc (generation input s).2))
     = child_processes (trace (proc s))
  /\ file_calls (trace (proc (generation input s).2)) = file_calls (trace (proc s)).
Proof.
  unfold generation, _print_progress_bar. mrun.
  destruct (generate_code_prompt input) as [text|e]; mrun; [|repeat split; reflexivity].
  match goal with |- context [_get_completion text ∅ ?s0] =>
    destruct (_get_completion_frame text ∅ s0) as (_ & Hfs & Hcp & Hfc);
    destruct (_get_completion text ∅ s0) as [[code|e] s1] end;
  mrun_in Hfs; mrun_in Hcp; mrun_in Hfc; mrun; rewrite ?Hfs.
  all: repeat split; rewrite ?child_processes_app, ?file_calls_app, ?Hcp, ?Hfc; frame_added.
Qed.

Lemma generation_value (input code : str) (s s2 : State) :
  generation input s = (Ok code, s2) ->
  generated_code (self s2) = _remove_python_prefix code.
Proof.
  unfold generation, _print_progress_bar. mrun.
  repeat (mcase; mrun); intros [= <- <-]. reflexivity.
Qed.

Lemma _write_code_to_file_generated_code (s : State) :
  generated_code (self (_write_code_to_file s).2) = generated_code (self s).
Proof.
  unfold _write_code_to_file, _generate_file_name, os_makedirs, write_file,
    _print_progress_bar. mrun.
  match goal with |- context [_get_completion ?t ∅ ?s0] =>
    destruct (_get_completion_frame t ∅ s0) as (Hself & _);
    destruct (_get_completion t ∅ s0) as [[name|e] s1] end;
  mrun_in Hself; mrun; [|rewrite Hself; reflexivity].
  repeat (mcase; mrun); rewrite Hself; reflexivity.
Qed.

Lemma _run_generated_code_self (cim : bool) (s : State) :
  self (_run_generated_code cim s).2 = self s.
Proof.
  unfold _run_generated_code, _print_progress_bar, os_path_exists, path_exists.
  repeat (mrun; mcase); mrun; reflexivity.
Qed.

(** C9: without [write_code_to_file], whatever [run_code] says, the value
    is the completion with its prefix removed, no file is written or removed
    and no child process is started.  The value holds no backtick and is
    made of characters of the completion and of newlines; a completion
    without backticks whose first line does not start with [python] is
    returned as it is. *)
Theorem no_write_means_no_run (input : str) (rc cim cg : bool) (s : State) :
  (forall code s2,
     generation input s = (Ok code, s2) ->
     exists value,
       generate_code input false rc cim cg s = (Ok value, s2)
       /\ value = _remove_python_prefix code
       /\ (96 ∉ value)
       /\ (forall c, c ∈ value -> c ∈ code \/ c = 10)
       /\ (96 ∉ code ->
           match splitlines code with
           | first :: _ => startswith (lit "python") (strip first) = false
           | [] => True
           end ->
           value = code))
  /\ fs (world (proc (generate_code input false rc cim cg s).2)) = fs (world (proc s))
  /\ file_calls (trace (proc (generate_code input false rc cim cg s).2))
     = file_calls (trace (proc s))
  /\ child_processes (trace (proc (generate_code input false rc cim cg s).2))
     = child_processes (trace (proc s)).
Proof.
  rewrite generate_code_steps. cbn [andb].
  destruct (generation_frame input s) as (Hfs & Hcp & Hfc).
  split.
  - intros code s2 H. exists (_remove_python_prefix code). split; [|split; [reflexivity|]].
    + mrun. rewrite H. rewrite <- (generation_value _ _ _ _ H). reflexivity.
    + split; [|split].
      * intros Hin. apply remove_prefix_keeps in Hin as [_ Hne]. congruence.
      * intros c Hin. apply remove_prefix_keeps in Hin as [Hc _]. exact Hc.
      * apply remove_prefix_plain_text.
  - mrun. destruct (generation input s) as [[code|e] s2]; mrun; auto.
Qed.

(** The value of [generate_code] after a loop that succeeded. *)
Lemma generate_code_value
    (input code out : str) (cim cg : bool) (s s2 s3 s4 : State) :
  generation input s = (Ok code, s2) ->
  _write_code_to_file s2 = (Ok tt, s3) ->
  _run_generated_code cim s3 = (Ok out, s4) ->
  (generate_code input true true cim cg s).1
  = Ok (if nonempty out then out else _remove_python_prefix code).
Proof.
  intros Hgen Hwrite Hrun. rewrite generate_code_steps. cbn [andb].
  assert (generated_code (self s4) = _remove_python_prefix code) as Hcode.
  { rewrite <- (generation_value _ _ _ _ Hgen).
    pose proof (_run_generated_code_self cim s3) as H4. rewrite Hrun in H4.
    pose proof (_write_code_to_file_generated_code s2) as H3. rewrite Hwrite in H3.
    cbn [snd] in H3, H4. rewrite H4. exact H3. }
  unfold finish, os_remove. mrun. rewrite Hgen. mrun. rewrite Hwrite. mrun. rewrite Hrun.
  repeat (mrun; mcase); mrun; rewrite ?Hcode; reflexivity.
Qed.

(** C10: when the loop succeeds with an empty output, the value of
    [generate_code] is the generated source, prefix removed; the output of
    the run is the value exactly when it is not empty. *)
Theorem empty_output_returns_source
    (input code out : str) (cim cg : bool) (s s2 s3 s4 : State) :
  generation input s = (Ok code, s2) ->
  _write_code_to_file s2 = (Ok tt, s3) ->
  _run_generated_code cim s3 = (Ok out, s4) ->
  (out = [] ->
   (generate_code input true true cim cg s).1 = Ok (_remove_python_prefix code))
  /\ (out <> [] -> (generate_code input true true cim cg s).1 = Ok out).
Proof.
  intros Hgen Hwrite Hrun.
  rewrite (generate_code_value _ _ _ _ _ _ _ _ _ Hgen Hwrite Hrun).
  split; [intros -> | intros Hne; destruct out; [congruence|]]; reflexivity.
Qed.

(** C1 (as amended): with [cleanup_generated_file], a loop that succeeds is
    followed by one attempt to remove the artifact, and by one line of
    output that reports it: unless the operating system refuses the removal
    the artifact is gone afterward; a removal that is refused is logged as a
    warning that carries the reason, and changes neither the world nor the
    value, which is the same either way.  A loop that fails ends
    [generate_code] at once: the error goes to the caller and the state is
    the one the loop left, artifact included. *)
Theorem artifact_removed_after_success
    (input code : str) (cim : bool) (s s2 s3 : State) :
  generation input s = (Ok code, s2) ->
  _write_code_to_file s2 = (Ok tt, s3) ->
  (forall out s4,
     _run_generated_code cim s3 = (Ok out, s4) ->
     (generate_code input true true cim true s).1
       = Ok (if nonempty out then out else _remove_python_prefix code)
     /\ (os_refuses (SysRemove (artifact_path (self s4))) (world (proc s4)) = None ->
         fs (world (proc (generate_code input true true cim true s).2))
           !! artifact_path (self s4) = None)
     /\ (exists line,
          trace (proc (generate_code input true true cim true s).2)
          = trace (proc s4)
            ++ [EvSys (SysRemove (artifact_path (self s4))); EvPrint line])
     /\ (forall e,
          os_refuses (SysRemove (artifact_path (self s4))) (world (proc s4)) = Some e ->
          trace (proc (generate_code input true true cim true s).2)
          = trace (proc s4)
            ++ [EvSys (SysRemove (artifact_path (self s4)));
                EvPrint (RED ++ WARNING_SIGN
                         ++ lit " Warning: Could not delete generated file '"
                         ++ file_name (self s4) ++ lit "': " ++ exc_str e ++ RESET)]
          /\ world (proc (generate_code input true true cim true s).2)
             = world (proc s4))
     /\ (os_refuses (SysRemove (artifact_path (self s4))) (world (proc s4)) = None ->
         is_Some (fs (world (proc s4)) !! artifact_path (self s4)) ->
         trace (proc (generate_code input true true cim true s).2)
         = trace (proc s4)
           ++ [EvSys (SysRemove (artifact_path (self s4)));
               EvPrint (YELLOW ++ BROOM ++ lit " Generated file '"
                        ++ file_name (self s4) ++ lit "' deleted successfully."
                        ++ RESET)]))
  /\ (forall e s4,
       _run_generated_code cim s3 = (Raise e, s4) ->
       generate_code input true true cim true s = (Raise e, s4)).
Proof.
  intros Hgen Hwrite. split.
  - intros out s4 Hrun.
    split; [exact (generate_code_value _ _ _ _ _ _ _ _ _ Hgen Hwrite Hrun)|].
    rewrite generate_code_steps. cbn [andb]. unfold artifact_path in *.
    unfold finish, os_remove, is_a_directory. mrun. rewrite Hgen. mrun. rewrite Hwrite.
    mrun. rewrite Hrun. mrun.
    destruct (os_refuses
                (SysRemove (path_join (root_directory (self s4)) (file_name (self s4))))
                (world (proc s4))) as [refusal|] eqn:Hos; mrun.
    + split; [discriminate|]. split; [eexists; rewrite <- app_assoc; reflexivity|].
      split; [|discriminate].
      intros e [= <-]. rewrite <- app_assoc. split; reflexivity.
    + destruct (fs (world (proc s4))
                !! path_join (root_directory (self s4)) (file_name (self s4))) eqn:E; mrun.
      * split; [intros _; apply lookup_delete_eq|].
        split; [eexists; rewrite <- app_assoc; reflexivity|].
        split; [discriminate|]. intros _ _. rewrite <- app_assoc. reflexivity.
      * destruct (os_path_isdir
                    (path_join (root_directory (self s4)) (file_name (self s4)))
                    (world (proc s4))); mrun.
        all: split; [intros _; exact E|].
        all: split; [eexists; rewrite <- app_assoc; reflexivity|].
        all: split; [discriminate|]. all: intros _ [? [=]].
  - intros e s4 Hrun. rewrite generate_code_steps. cbn [andb].
    mrun. rewrite Hgen. mrun. rewrite Hwrite. mrun. rewrite Hrun. reflexivity.
Qed.

(** * Further properties *)

(** ** Dictionaries in insertion order *)

Lemma dict_get_set_eq {V} (k : str) (v : V) (d : list (str * V)) :
  dict_get k (dict_set k v d) = Some v.
Proof.
  induction d as [|[k0 v0] d IH]; cbn [dict_set dict_get].
  - rewrite bool_decide_eq_true_2; reflexivity.
  - destruct (bool_decide (k0 = k)) eqn:E; cbn [dict_get].
    + rewrite bool_decide_eq_true_2; reflexivity.
    + rewrite E. exact IH.
Qed.

Lemma dict_get_set_ne {V} (k k' : str) (v : V) (d : list (str * V)) :
  k <> k' -> dict_get k' (dict_set k v d) = dict_get k' d.
Proof.
  intros Hne. induction d as [|[k0 v0] d IH]; cbn [dict_set dict_get].
  - rewrite bool_decide_eq_false_2; [reflexivity | exact Hne].
  - destruct (bool_decide (k0 = k)) eqn:E; cbn [dict_get].
    + apply bool_decide_eq_true in E as ->.
      rewrite !bool_decide_eq_false_2 by exact Hne. reflexivity.
    + rewrite IH. reflexivity.
Qed.

Lemma keys_dict_set {V} (k : str) (v : V) (d : list (str * V)) :
  keys (dict_set k v d) = if dict_mem k d then keys d else keys d ++ [k].
Proof.
  unfold dict_mem, keys. induction d as [|[k0 v0] d IH]; cbn [dict_set dict_get List.map fst].
  - reflexivity.
  - destruct (bool_decide (k0 = k)) eqn:E; cbn [List.map fst].
    + apply bool_decide_eq_true in E as ->. reflexivity.
    + rewrite IH. destruct (dict_get k d); reflexivity.
Qed.

Lemma dict_mem_keys {V} (k : str) (d : list (str * V)) :
  dict_mem k d = true <-> k ∈ keys d.
Proof.
  unfold dict_mem, keys. induction d as [|[k0 v0] d IH]; cbn [dict_get List.map fst].
  - split; [discriminate | intros H; inversion H].
  - destruct (bool_decide (k0 = k)) eqn:E.
    + apply bool_decide_eq_true in E as ->. split; [intros _; left | reflexivity].
    + apply bool_decide_eq_false in E. rewrite IH. split.
      * intros H. right. exact H.
      * intros [?|?]%elem_of_cons; [congruence | assumption].
Qed.

(** ** The registry *)

(** X4: [register_provider] refuses what is not a provider class, with a
    [ValueError] for a class that does not inherit from [BaseProvider] and
    the [TypeError] of [issubclass] for an object that is not a class, and
    then changes nothing.  For a provider class it makes the registry map
    the name to the class: a new name goes to the end of the list of
    available providers, a name that was there keeps its place.  In every
    case the other names keep their classes and the rest of the process is
    untouched. *)
Theorem register_provider_registers
    (name : str) (c : class_argument) (p : Proc) :
  match c with
  | ProviderClass cls =>
      (register_provider name c p).1 = Ok tt
      /\ dict_get name (_providers (register_provider name c p).2) = Some cls
      /\ (factory_available_providers (register_provider name c p).2).1
         = Ok (if dict_mem name (_providers p)
               then keys (_providers p) else keys (_providers p) ++ [name])
  | ForeignClass =>
      register_provider name c p
      = (Raise (Exc ValueError (lit "Provider class must inherit from BaseProvider")), p)
  | NotAClass =>
      register_provider name c p
      = (Raise (Exc TypeError (lit "issubclass() arg 1 must be a class")), p)
  end
  /\ (forall k, k <> name ->
       dict_get k (_providers (register_provider name c p).2)
       = dict_get k (_providers p))
  /\ world (register_provider name c p).2 = world p
  /\ next_id (register_provider name c p).2 = next_id p
  /\ trace (register_provider name c p).2 = trace p.
Proof.
  destruct c as [cls| |]; unfold register_provider, factory_available_providers; mrun.
  - split; [split; [reflexivity|]; split|].
    + apply dict_get_set_eq.
    + rewrite keys_dict_set. reflexivity.
    + split; [|repeat split]. intros k Hk. apply dict_get_set_ne. congruence.
  - repeat split.
  - repeat split.
Qed.

(** X5: a provider registered under a name that the table of [config.py]
    does not have is listed as available, and a request for it is still
    refused as unknown: [get_provider] asks the table first. *)
Theorem registered_name_outside_the_table
    (name : str) (cls : provider_class) (kw : gmap str pyval) (p : Proc) :
  name <> [] ->
  dict_get name AI_PROVIDERS = None ->
  (exists names,
     (factory_available_providers (register_provider name (ProviderClass cls) p).2).1 = Ok names
     /\ name ∈ names)
  /\ get_provider (Some name) kw (register_provider name (ProviderClass cls) p).2
     = (Raise (Exc ValueError
          (lit "Unknown provider: " ++ name ++ lit ". Available: "
           ++ repr_list isprintable (keys AI_PROVIDERS))),
        (register_provider name (ProviderClass cls) p).2).
Proof.
  intros Hne Htab. split.
  - unfold register_provider, factory_available_providers. mrun.
    eexists. split; [reflexivity|].
    apply dict_mem_keys. unfold dict_mem. rewrite dict_get_set_eq. reflexivity.
  - unfold get_provider, get_provider_config.
    rewrite (or_else_nonempty _ _ Hne), Htab. mrun. reflexivity.
Qed.

Lemma get_provider_config_found (name key : str) (entry : gmap str str) :
  dict_get name AI_PROVIDERS = Some entry ->
  dict_get name (API_KEYS cfg) = Some key ->
  key <> [] ->
  get_provider_config isprintable cfg (Some name)
  = Ok (<[lit "api_key" := key]> entry).
Proof.
  intros Htab Hkey Hne.
  assert (name <> []) as Hname by (intros ->; discriminate).
  unfold get_provider_config. rewrite (or_else_nonempty _ _ Hname), Htab, Hkey.
  destruct key; [congruence | reflexivity].
Qed.

Lemma not_passed_twice (names : list str) (kw : gmap str pyval) :
  Forall (fun k => kw !! k = None) names -> passed_twice names kw = None.
Proof.
  unfold passed_twice. induction 1 as [|k names Hk _ IH]; cbn [List.find]; [reflexivity|].
  rewrite Hk, bool_decide_eq_false_2 by (intros [? [=]]). exact IH.
Qed.

(** X6: what [get_provider] builds.  For a name of the table that has a key
    and a registered class whose library is there, the provider is of the
    registered class, holds the configured key and a new client, and its
    model is the caller's [model] keyword if there is one and the default
    model of the table otherwise; the other keywords are handed on. *)
Theorem get_provider_builds
    (name key : str) (entry : gmap str str) (cls : provider_class)
    (kw : gmap str pyval) (p : Proc) :
  dict_get name AI_PROVIDERS = Some entry ->
  dict_get name (API_KEYS cfg) = Some key ->
  key <> [] ->
  dict_get name (_providers p) = Some cls ->
  library_available cls = true ->
  kw !! lit "api_key" = None ->
  kw !! lit "self" = None ->
  get_provider (Some name) kw p
  = (Ok {| provider_cls := cls; api_key := key;
           provider_model :=
             default (of_option (entry !! lit "default_model")) (kw !! lit "model");
           provider_kwargs := delete (lit "model") kw;
           _client := {| client_sdk := cls; client_id := next_id p;
                         client_api_key := key |} |},
     {| world := world p; _providers := _providers p; next_id := S (next_id p);
        trace := trace p
                 ++ [EvNewClient {| client_sdk := cls; client_id := next_id p;
                                    client_api_key := key |}] |}).
Proof.
  intros Htab Hkey Hne Hreg Hlib Hk1 Hk2.
  assert (name <> []) as Hname by (intros ->; discriminate).
  unfold get_provider. rewrite (get_provider_config_found _ _ _ Htab Hkey Hne). mrun.
  rewrite (or_else_nonempty _ _ Hname), Hreg, lookup_insert_eq.
  rewrite not_passed_twice
    by (repeat constructor; rewrite lookup_delete_ne by discriminate; assumption).
  unfold Provider__init__, new_client. rewrite Hlib. cbn [negb]. mrun.
  rewrite lookup_insert_ne by discriminate. reflexivity.
Qed.

(** X7: when the library of the registered class is not installed, the
    factory fails with the [ImportError] that says what to install, and
    creates nothing; an assistant's constructor reports it as a
    [ValueError] that also lists the registered providers. *)
Theorem missing_library_is_reported
    (name key : str) (entry : gmap str str) (cls : provider_class)
    (kw : gmap str pyval) (p : Proc) (m : option str) (t : Q) (mt : Z) (tp : Q) :
  dict_get name AI_PROVIDERS = Some entry ->
  dict_get name (API_KEYS cfg) = Some key ->
  key <> [] ->
  dict_get name (_providers p) = Some cls ->
  library_available cls = false ->
  kw !! lit "api_key" = None ->
  kw !! lit "self" = None ->
  kw !! lit "model" = None ->
  kw !! lit "provider_name" = None ->
  kw !! lit "cls" = None ->
  get_provider (Some name) kw p = (Raise (Exc ImportError (library_missing cls)), p)
  /\ ChatPython__init__ (Some name) m t mt tp kw p
     = (Raise (Exc ValueError
          (lit "Failed to initialize provider '" ++ name ++ lit "': "
           ++ library_missing cls ++ lit ". Available providers: "
           ++ repr_list isprintable (keys (_providers p)))), p).
Proof.
  intros Htab Hkey Hne Hreg Hlib Hk1 Hk2 Hk3 Hk4 Hk5.
  assert (name <> []) as Hname by (intros ->; discriminate).
  pose proof (get_provider_config_found _ _ _ Htab Hkey Hne) as Hcfg.
  assert (forall kw', kw' !! lit "api_key" = None -> kw' !! lit "self" = None ->
          get_provider (Some name) kw' p
          = (Raise (Exc ImportError (library_missing cls)), p)) as Hget.
  { intros kw' H1 H2. unfold get_provider. rewrite Hcfg. mrun.
    rewrite (or_else_nonempty _ _ Hname), Hreg, lookup_insert_eq.
    rewrite not_passed_twice
      by (repeat constructor; rewrite lookup_delete_ne by discriminate; assumption).
    unfold Provider__init__. rewrite Hlib. reflexivity. }
  split; [exact (Hget kw Hk1 Hk2)|].
  unfold ChatPython__init__, BaseAssistant__init__.
  rewrite (or_else_nonempty _ _ Hname), Hcfg.
  unfold _initialize_provider, factory_available_providers. mrun.
  rewrite not_passed_twice by (repeat constructor; assumption).
  mrun. rewrite Hget by (rewrite lookup_insert_ne by discriminate; assumption).
  mrun. reflexivity.
Qed.

(** ** The assistant *)

(** X8: a switch that fails raises a [ValueError] and builds nothing, but it
    has already taken effect on the object: the name and the merged
    keywords are the new ones, while the provider is still the one the
    object had. *)
Theorem failed_switch_keeps_the_provider
    (name : str) (kw : gmap str pyval) (s s' : State) (e : exc) :
  switch_provider name kw s = (Raise e, s') ->
  exc_type e = ValueError
  /\ _provider (self s') = _provider (self s)
  /\ provider_name (self s') = name
  /\ kwargs (self s') = kw ∪ kwargs (self s)
  /\ proc s' = proc s.
Proof.
  unfold switch_provider, _initialize_provider, get_provider, factory_available_providers,
    Provider__init__, new_client.
  mrun. repeat (mcase; mrun); intros [= <- <-]; try discriminate.
  all: repeat split; destruct s as [a p]; destruct p; reflexivity.
Qed.

(** X9: a [model] keyword makes a switch fail, and stays: once it is among
    the keywords of the object, by this call or an earlier one, every switch
    fails with the interpreter's complaint about a keyword passed twice, and
    the keyword is still there afterward. *)
Theorem model_keyword_breaks_switch
    (name : str) (kw : gmap str pyval) (s : State) :
  is_Some ((kw ∪ kwargs (self s)) !! lit "model") ->
  (switch_provider name kw s).1
  = Raise (Exc ValueError
      (lit "Failed to initialize provider '" ++ name ++ lit "': "
       ++ duplicate_keyword (lit "get_provider") (lit "model")
       ++ lit ". Available providers: "
       ++ repr_list isprintable (keys (_providers (proc s)))))
  /\ is_Some (kwargs (self (switch_provider name kw s).2) !! lit "model").
Proof.
  intros Hmodel.
  unfold switch_provider, _initialize_provider, factory_available_providers, passed_twice.
  mrun. cbn [List.find]. rewrite (bool_decide_eq_true_2 _ Hmodel). mrun.
  split; [reflexivity | exact Hmodel].
Qed.

(** X10: an error of a completion reaches the caller as an [Exception]
    whose text names the assistant's provider and, when the provider exists,
    the API that failed; the object is as it was. *)
Theorem completion_error_names_the_provider
    (text : str) (more : gmap str pyval) (s s' : State) (e : exc) :
  _get_completion text more s = (Raise e, s') ->
  exc_type e = Exception
  /\ self s' = self s
  /\ exists detail,
       exc_str e
       = lit "AI completion error (" ++ provider_name (self s) ++ lit "): "
         ++ match _provider (self s) with
            | Some provider =>
                api_name (provider_cls provider) ++ lit " API error: " ++ detail
            | None => detail
            end.
Proof.
  unfold _get_completion, get_completion, api_error.
  mrun. repeat (mcase; mrun); intros [= <- <-]; try discriminate.
  all: repeat split; try (destruct s; reflexivity); eexists; reflexivity.
Qed.

(** X11: the request that goes upstream.  A keyword of the caller overrides
    every field, [model], [messages] and [stream] included; without
    keywords of the caller the request carries the provider's model, the
    prompt as the one user message, the sampling settings of the assistant
    and the mode of the call. *)
Theorem request_fields
    (a : Assistant) (provider : Provider) (text : str) (stream : bool)
    (more : gmap str pyval) :
  (forall k v,
     more !! k = Some v ->
     request_params provider text stream (completion_kwargs a more) !! k = Some v)
  /\ request_params provider text stream (completion_kwargs a ∅)
     = <[lit "model" := provider_model provider]>
       (<[lit "messages" :=
           PList [PDict [(lit "role", PStr (lit "user")); (lit "content", PStr text)]]]>
       (<[lit "temperature" := PFloat (temperature a)]>
       (<[lit "max_tokens" := PInt (max_tokens a)]>
       (<[lit "top_p" := PFloat (top_p a)]>
       (<[lit "stream" := PBool stream]> ∅))))).
Proof.
  split.
  - intros k v Hk. unfold request_params, completion_kwargs.
    apply lookup_union_Some_l, lookup_union_Some_l, Hk.
  - unfold request_params, completion_kwargs. rewrite (left_id_L ∅ (∪)).
    apply map_eq. intros k.
    destruct (decide (k = lit "model")) as [->|?];
    [|destruct (decide (k = lit "messages")) as [->|?];
    [|destruct (decide (k = lit "temperature")) as [->|?];
    [|destruct (decide (k = lit "max_tokens")) as [->|?];
    [|destruct (decide (k = lit "top_p")) as [->|?];
    [|destruct (decide (k = lit "stream")) as [->|?]]]]]].
    all: rewrite lookup_union;
      repeat (first [rewrite lookup_insert_eq | rewrite lookup_insert_ne by congruence]);
      rewrite ?lookup_empty; reflexivity.
Qed.

(** X12: the model of a new assistant.  When the construction succeeds, the
    model is the one the caller gave unless that is missing or empty, in
    which case it is the default model of the configuration of the provider;
    the provider was built with that model and holds a new client, and the
    name of the provider is the one given, or the default provider when
    none (or the empty name) is given. *)
Theorem constructed_model
    (n m : option str) (t : Q) (mt : Z) (tp : Q) (kw : gmap str pyval)
    (p p' : Proc) (a : Assistant) :
  ChatPython__init__ n m t mt tp kw p = (Ok a, p') ->
  provider_name a = or_else n (DEFAULT_PROVIDER cfg)
  /\ get_provider_config isprintable cfg (Some (provider_name a))
     = Ok (provider_config a)
  /\ model a
     = match m with
       | Some (_ :: _) => m
       | _ => provider_config a !! lit "default_model"
       end
  /\ (exists provider,
        _provider a = Some provider
        /\ provider_model provider = of_option (model a)
        /\ client_id (_client provider) = next_id p)
  /\ root_directory a = cwd (world p)
  /\ generated_code a = [] /\ file_name a = [].
Proof.
  unfold ChatPython__init__, BaseAssistant__init__, _initialize_provider, get_provider,
    factory_available_providers, Provider__init__, new_client.
  mrun.
  destruct (get_provider_config isprintable cfg (Some (or_else n (DEFAULT_PROVIDER cfg))))
    as [config|e] eqn:Hcfg; mrun; [|discriminate].
  repeat (mcase; mrun); intros [= <- <-]; try discriminate.
  all: split; [reflexivity|]; split; [exact Hcfg|]; split; [reflexivity|].
  all: split; [|repeat split].
  all: eexists; split; [reflexivity|]; split; [|reflexivity].
  all: cbn [provider_model]; rewrite lookup_insert_eq; reflexivity.
Qed.

(** ** Streaming *)

Lemma stream_chunks_nonempty (cs : list ChatCompletionChunk) (e : option exc) :
  Forall (fun y => y <> []) (stream_chunks cs e).1.
Proof.
  induction cs as [|chunk cs IH]; cbn [stream_chunks]; [constructor|].
  destruct (chunk_choices chunk) as [|choice rest]; [constructor|].
  destruct (stream_chunks cs e) as [ys e'].
  destruct (delta_content choice) as [[|c text]|]; cbn [fst] in *; try exact IH.
  constructor; [discriminate | exact IH].
Qed.

Lemma stream_chunks_app (good : list ChatCompletionChunk) (t : str) :
  deltas_text good = Some t ->
  exists ys,
    concat ys = t
    /\ forall cs e,
         stream_chunks (good ++ cs) e
         = (ys ++ (stream_chunks cs e).1, (stream_chunks cs e).2).
Proof.
  revert t. induction good as [|chunk good IH]; intros t; cbn [deltas_text].
  - intros [= <-]. exists []. split; [reflexivity|]. intros cs e. cbn [app].
    destruct (stream_chunks cs e); reflexivity.
  - destruct (chunk_choices chunk) as [|choice rest] eqn:Hc; [discriminate|].
    destruct (deltas_text good) as [t'|]; [|discriminate]. intros [= <-].
    destruct (IH t' eq_refl) as (ys & Hys & Happ).
    destruct (delta_content choice) as [[|c text]|] eqn:Hd; cbn [default].
    + exists ys. split; [exact Hys|]. intros cs e. cbn [app stream_chunks].
      rewrite Hc, Happ, Hd. reflexivity.
    + exists ((c :: text) :: ys). split; [cbn; rewrite Hys; reflexivity|].
      intros cs e. cbn [app stream_chunks]. rewrite Hc, Happ, Hd. reflexivity.
    + exists ys. split; [exact Hys|]. intros cs e. cbn [app stream_chunks].
      rewrite Hc, Happ, Hd. reflexivity.
Qed.

(** X13: the streaming variant never yields an empty chunk, and when it
    ends with an error, that error is an [Exception] whose text starts with
    the name of the API. *)
Theorem streamed_chunks_are_not_empty
    (provider : Provider) (text : str) (kw : gmap str pyval) (p : Proc) :
  Forall (fun y => y <> []) (get_streaming_completion provider text kw p).1.1
  /\ forall e,
       (get_streaming_completion provider text kw p).1.2 = Some e ->
       exc_type e = Exception
       /\ exists detail,
            exc_str e = api_name (provider_cls provider) ++ lit " API error: " ++ detail.
Proof.
  unfold get_streaming_completion, api_error. mrun.
  destruct (chat_create_stream (_client provider)
              (request_params provider text true kw) (ext (world p)))
    as [[completion|e0] e1]; mrun.
  - pose proof (stream_chunks_nonempty (chunks completion) (stream_error completion)) as H.
    destruct (stream_chunks (chunks completion) (stream_error completion)) as [ys e'].
    cbn [fst snd] in *. split; [exact H|].
    destruct e' as [e'|]; cbn [fmap option_fmap option_map]; intros e [= <-].
    split; [reflexivity | eexists; reflexivity].
  - split; [constructor|]. intros e [= <-]. split; [reflexivity | eexists; reflexivity].
Qed.

(** X14: a stream that fails on the way has yielded what came before.  When
    a chunk without choices follows chunks that carry the text [t], or when
    the transport fails after chunks that carry [t], the chunks yielded
    concatenate to [t] and the generator then ends with the error, wrapped. *)
Theorem stream_fails_after_partial_output
    (provider : Provider) (text : str) (kw : gmap str pyval) (p : Proc)
    (s : Stream) (e2 : Ext) (t : str) :
  chat_create_stream (_client provider) (request_params provider text true kw)
    (ext (world p)) = (Ok s, e2) ->
  (forall good bad rest,
     chunks s = good ++ bad :: rest ->
     deltas_text good = Some t ->
     chunk_choices bad = [] ->
     exists ys,
       (get_streaming_completion provider text kw p).1
       = (ys, Some (api_error provider (Exc IndexError (lit "list index out of range"))))
       /\ concat ys = t)
  /\ (forall err,
       stream_error s = Some err ->
       deltas_text (chunks s) = Some t ->
       exists ys,
         (get_streaming_completion provider text kw p).1
         = (ys, Some (api_error provider err))
         /\ concat ys = t).
Proof.
  intros Hs. split.
  - intros good bad rest Hchunks Hgood Hbad.
    destruct (stream_chunks_app _ _ Hgood) as (ys & Hys & Happ).
    exists ys. split; [|exact Hys].
    unfold get_streaming_completion. mrun. rewrite Hs. mrun.
    rewrite Hchunks, Happ. cbn [stream_chunks]. rewrite Hbad. cbn [fst snd].
    rewrite app_nil_r. reflexivity.
  - intros err Herr Htext.
    destruct (stream_chunks_app _ _ Htext) as (ys & Hys & Happ).
    exists ys. split; [|exact Hys].
    unfold get_streaming_completion. mrun. rewrite Hs. mrun.
    rewrite <- (app_nil_r (chunks s)), Happ, Herr. cbn [stream_chunks fst snd].
    rewrite app_nil_r. reflexivity.
Qed.

(** ** The artifact *)

Lemma path_join_twice (root name : str) :
  path_join (path_join root []) name = path_join root name.
Proof.
  unfold path_join. change (startswith (lit "/") []) with false. cbv iota.
  destruct (startswith (lit "/") name); [reflexivity|].
  destruct root as [|c root]; [reflexivity|]. cbn [nonempty negb orb].
  destruct (endswith (lit "/") (c :: root)) eqn:E.
  - rewrite app_nil_r. cbn [nonempty negb orb]. rewrite E. reflexivity.
  - assert (endswith (lit "/") ((c :: root) ++ lit "/" ++ []) = true) as ->.
    { unfold endswith. rewrite app_nil_r, rev_app_distr. reflexivity. }
    cbn [app nonempty negb orb]. rewrite <- !app_assoc. reflexivity.
Qed.

(** X18: after [_write_code_to_file] has returned, the file at the path
    where the loop looks for the artifact, and where the clean-up removes
    it, holds the generated code, which is not empty; the generated code and
    the root directory of the object are as before. *)
Theorem written_artifact_is_found (s s' : State) :
  _write_code_to_file s = (Ok tt, s') ->
  fs (world (proc s')) !! artifact_path (self s') = Some (generated_code (self s'))
  /\ generated_code (self s') = generated_code (self s)
  /\ generated_code (self s) <> []
  /\ root_directory (self s') = root_directory (self s).
Proof.
  unfold _write_code_to_file, _generate_file_name, os_makedirs, write_file,
    _print_progress_bar, artifact_path. mrun.
  match goal with |- context [_get_completion ?t ∅ ?s0] =>
    destruct (_get_completion_frame t ∅ s0) as (Hself & _);
    destruct (_get_completion t ∅ s0) as [[name|e] s1] end;
  mrun_in Hself; mrun; [|discriminate].
  rewrite Hself, path_join_twice.
  repeat (mcase; mrun); intros [= <-]; try discriminate. mrun.
  rewrite lookup_insert_eq. split; [reflexivity|]. split; [reflexivity|].
  split; [|reflexivity]. intros Hempty.
  match goal with H : nonempty _ = true |- _ => rewrite Hempty in H; discriminate end.
Qed.

(** X19: with no generated code, [_write_code_to_file] fails and writes no
    file: the files are as they were. *)
Theorem empty_code_is_not_written (s : State) :
  generated_code (self s) = [] ->
  (exists e, (_write_code_to_file s).1 = Raise e)
  /\ fs (world (proc (_write_code_to_file s).2)) = fs (world (proc s)).
Proof.
  intros Hempty.
  unfold _write_code_to_file, _generate_file_name, os_makedirs, write_file,
    _print_progress_bar. mrun.
  match goal with |- context [_get_completion ?t ∅ ?s0] =>
    destruct (_get_completion_frame t ∅ s0) as (Hself & Hfs & _);
    destruct (_get_completion t ∅ s0) as [[name|e] s1] end;
  mrun_in Hself; mrun_in Hfs; mrun; [|split; [eexists; reflexivity | exact Hfs]].
  rewrite Hself, Hempty.
  repeat (mcase; mrun);
    try match goal with H : nonempty [] = true |- _ => discriminate H end;
    (split; [eexists; reflexivity | exact Hfs]).
Qed.

(** ** The loop, path by path *)

(** A run that is known to have raised: the exception and the state, as the
    run built them. *)
Ltac inv_raise :=
  match goal with
  | |- (Ok _, _) = (Raise _, _) -> _ => discriminate
  | |- (Raise ?X, ?S) = (Raise ?e, ?s') -> _ =>
      let H := fresh in
      intros H; assert (e = X) as -> by congruence;
      assert (s' = S) as -> by congruence; clear H
  end.

(** X20: the two kinds of failure of the loop.  When it raises
    [FileNotFoundError] nothing is at the path of the artifact, neither a
    file nor a directory, and the loop has done nothing; every other failure
    happens with something at that path and is an [Exception] whose text is
    [Cannot run code: ] and a detail, between the colour codes. *)
Theorem loop_failures (cim : bool) (s s' : State) (e : exc) :
  _run_generated_code cim s = (Raise e, s') ->
  (exc_type e = FileNotFoundError
   /\ path_exists (artifact_path (self s)) (world (proc s)) = false
   /\ s' = s)
  \/ (exc_type e = Exception
      /\ path_exists (artifact_path (self s)) (world (proc s)) = true
      /\ exists detail, exc_str e = RED ++ lit "Cannot run code: " ++ detail ++ RESET).
Proof.
  unfold _run_generated_code, _print_progress_bar, os_path_exists, artifact_path. mrun.
  destruct (path_exists (path_join (root_directory (self s)) (file_name (self s)))
              (world (proc s))) eqn:Hthere; cbn [negb].
  - repeat (mrun; mcase); mrun; inv_raise.
    all: right; split; [reflexivity|]; split; [reflexivity|]; eexists; reflexivity.
  - mrun. inv_raise. left. split; [reflexivity|]. split; [reflexivity|].
    destruct s; reflexivity.
Qed.

(** X21: a failed install ends the loop: the error carries what the
    installer wrote on its error stream, and the script is not run again. *)
Theorem failed_install_is_final
    (s : State) (cim : bool) (m : str) (r1 ri : CompletedProcess) (w1 w2 : World) :
  is_Some (fs (world (proc s)) !! artifact_path (self s)) ->
  subprocess_run [sys_executable; artifact_path (self s)] (world (proc s))
    = (Ok r1, w1) ->
  returncode r1 <> 0%Z ->
  contains (lit "ModuleNotFoundError") (stderr r1) = true ->
  Re.search (stderr r1) = Some m ->
  subprocess_run (pip_install m) w1 = (Ok ri, w2) ->
  returncode ri <> 0%Z ->
  (_run_generated_code cim s).1
    = Raise (Exc Exception
        (RED ++ lit "Cannot run code: "
         ++ (RED ++ lit "Failed to install '" ++ m ++ lit "':" ++ NL ++ stderr ri
             ++ RESET) ++ RESET))
  /\ child_processes (trace (proc (_run_generated_code cim s).2))
     = child_processes (trace (proc s))
       ++ [[sys_executable; artifact_path (self s)]; pip_install m]
  /\ world (proc (_run_generated_code cim s).2) = w2.
Proof.
  intros Hfile Hrun1 Hrc1 Hmnf Hre Hrun2 Hrc2.
  apply Z.eqb_neq in Hrc1, Hrc2. unfold artifact_path in *.
  unfold _run_generated_code, _print_progress_bar, os_path_exists, path_exists.
  repeat (mrun; muse). mrun.
  split; [reflexivity|]. split; [trace_added | reflexivity].
Qed.

(** X22: a script that exits with status 0 at once: the loop returns its
    output, has started no other process, and leaves the world as the
    script left it. *)
Theorem first_run_succeeds
    (s : State) (cim : bool) (r1 : CompletedProcess) (w1 : World) :
  is_Some (fs (world (proc s)) !! artifact_path (self s)) ->
  subprocess_run [sys_executable; artifact_path (self s)] (world (proc s))
    = (Ok r1, w1) ->
  returncode r1 = 0%Z ->
  (_run_generated_code cim s).1 = Ok (stdout r1)
  /\ child_processes (trace (proc (_run_generated_code cim s).2))
     = child_processes (trace (proc s)) ++ [[sys_executable; artifact_path (self s)]]
  /\ world (proc (_run_generated_code cim s).2) = w1.
Proof.
  intros Hfile Hrun1 Hrc1. apply Z.eqb_eq in Hrc1. unfold artifact_path in *.
  unfold _run_generated_code, _print_progress_bar, os_path_exists, path_exists.
  repeat (mrun; muse). mrun.
  split; [reflexivity|]. split; [trace_added | reflexivity].
Qed.

(** X23: the uninstall step.  The loop starts the uninstaller at most once,
    never without having started the installer, and never when
    [cleanup_installed_module] is not set. *)
Theorem uninstall_only_when_asked (s : State) (cim : bool) :
  exists added,
    child_processes (trace (proc (_run_generated_code cim s).2))
      = child_processes (trace (proc s)) ++ added
    /\ (length (List.filter is_pip_uninstall added)
        <= length (List.filter is_pip_install added) <= 1)%nat
    /\ (cim = false -> List.filter is_pip_uninstall added = []).
Proof.
  unfold _run_generated_code, _print_progress_bar, os_path_exists, path_exists.
  repeat (mrun; mcase); mrun.
  all: eexists; split; [trace_added|].
  all: unfold pip_install, pip_uninstall; cbn [List.filter is_pip_install is_pip_uninstall].
  all: rewrite ?(bool_decide_eq_true_2 (sys_executable = sys_executable /\ _))
         by (repeat split).
  all: repeat match goal with |- context [bool_decide ?P] => destruct (bool_decide P) end.
  all: cbn [length]; split; [lia | try discriminate; reflexivity].
Qed.

(** ** The import of [config.py] *)

Lemma collected_keys (getenv : str -> option str) :
  collect_api_keys getenv AI_PROVIDERS []
  = match env_key getenv (lit "GROQ_API_KEY"), env_key getenv (lit "OPENAI_API_KEY") with
    | Some g, Some o => [(lit "groq", g); (lit "openai", o)]
    | Some g, None => [(lit "groq", g)]
    | None, Some o => [(lit "openai", o)]
    | None, None => []
    end.
Proof.
  unfold AI_PROVIDERS, env_key. cbn [collect_api_keys].
  rewrite !lookup_insert_eq. cbn [mbind option_bind].
  destruct (getenv (lit "GROQ_API_KEY")) as [[|c g]|];
    destruct (getenv (lit "OPENAI_API_KEY")) as [[|d o]|]; reflexivity.
Qed.

(** X24: what a successful import leaves.  [API_KEYS] maps each provider of
    the table to the value of its environment variable when that is set and
    not empty, and holds nothing else; the default provider has a key, so a
    request for the default configuration succeeds; and the default is the
    provider that [FAWERN_AI_PROVIDER] names (Groq if it is not set)
    whenever that provider has a key. *)
Theorem import_config_keys (getenv : str -> option str) (c : ConfigModule) :
  import_config isprintable getenv = Ok c ->
  dict_get (lit "groq") (API_KEYS c) = env_key getenv (lit "GROQ_API_KEY")
  /\ dict_get (lit "openai") (API_KEYS c) = env_key getenv (lit "OPENAI_API_KEY")
  /\ (forall name, dict_mem name (API_KEYS c) = true -> dict_mem name AI_PROVIDERS = true)
  /\ dict_mem (DEFAULT_PROVIDER c) (API_KEYS c) = true
  /\ is_ok (get_provider_config isprintable c None) = true
  /\ (dict_mem (default (lit "groq") (getenv (lit "FAWERN_AI_PROVIDER"))) (API_KEYS c) = true ->
      DEFAULT_PROVIDER c = default (lit "groq") (getenv (lit "FAWERN_AI_PROVIDER"))).
Proof.
  unfold import_config. rewrite collected_keys.
  generalize (default (lit "groq") (getenv (lit "FAWERN_AI_PROVIDER"))). intros chosen.
  assert (forall g, env_key getenv (lit "GROQ_API_KEY") = Some g -> g <> []) as Hg.
  { unfold env_key. intros g. destruct (getenv (lit "GROQ_API_KEY")) as [[|]|];
      intros [= <-]; discriminate. }
  assert (forall o, env_key getenv (lit "OPENAI_API_KEY") = Some o -> o <> []) as Ho.
  { unfold env_key. intros o. destruct (getenv (lit "OPENAI_API_KEY")) as [[|]|];
      intros [= <-]; discriminate. }
  destruct (env_key getenv (lit "GROQ_API_KEY")) as [g|];
    destruct (env_key getenv (lit "OPENAI_API_KEY")) as [o|];
    try (specialize (Hg _ eq_refl)); try (specialize (Ho _ eq_refl));
    unfold dict_mem, keys, get_provider_config; cbn [dict_get List.map fst or_else].
  all: destruct (bool_decide (lit "groq" = chosen)) eqn:E1;
    [apply bool_decide_eq_true in E1; subst chosen|];
    try (destruct (bool_decide (lit "openai" = chosen)) eqn:E2;
         [apply bool_decide_eq_true in E2; subst chosen|]);
    try discriminate; intros [= <-]; cbn [API_KEYS DEFAULT_PROVIDER or_else dict_get].
  all: repeat split; try reflexivity; try discriminate.
  all: try (intros name; unfold AI_PROVIDERS; cbn [dict_get];
            destruct (bool_decide (lit "groq" = name)); [reflexivity|];
            destruct (bool_decide (lit "openai" = name)); [reflexivity | discriminate]).
  all: try (destruct g; [congruence | reflexivity]).
  all: try (destruct o; [congruence | reflexivity]).
  all: rewrite ?E1, ?E2; discriminate.
Qed.

(** X25: the import fails exactly when neither key is set (or both are
    empty), with a [ValueError] that lists the names of the providers. *)
Theorem import_fails_without_keys (getenv : str -> option str) :
  (env_key getenv (lit "GROQ_API_KEY") = None
   /\ env_key getenv (lit "OPENAI_API_KEY") = None)
  <-> import_config isprintable getenv
      = Raise (Exc ValueError
          (lit "No AI provider API keys found. Please set one of: "
           ++ repr_list isprintable (keys AI_PROVIDERS))).
Proof.
  unfold import_config. rewrite collected_keys.
  generalize (default (lit "groq") (getenv (lit "FAWERN_AI_PROVIDER"))). intros chosen.
  destruct (env_key getenv (lit "GROQ_API_KEY")) as [g|];
    destruct (env_key getenv (lit "OPENAI_API_KEY")) as [o|];
    unfold dict_mem, keys; cbn [dict_get List.map fst].
  all: repeat match goal with |- context [bool_decide ?P] => destruct (bool_decide P) end.
  all: split; [intros [? ?]; try discriminate; reflexivity | try discriminate; auto].
Qed.

End Program.

Arguments World : clear implicits.
Arguments Proc : clear implicits.
Arguments State : clear implicits.

(** * Concrete runs

    A small world to run the program in: the outside is the list of the
    packages installed for the interpreter; the generated script imports the
    modules [needs], fails with [crash] if that is set, and prints [output]
    otherwise; the package index offers [index]. *)

Module Fixture.

Definition exe : str := lit "/usr/bin/python3".

Record Script : Type := {
  needs : list str;
  crash : option str;
  output : str
}.

Definition traceback (m : str) : str :=
  lit "Traceback (most recent call last):" ++ NL
  ++ lit "  File " ++ [34] ++ lit "/work/main.py" ++ [34] ++ lit ", line 1, in <module>" ++ NL
  ++ lit "ModuleNotFoundError: No module named '" ++ m ++ lit "'" ++ NL.

Definition done (rc : Z) (out err : str) : result CompletedProcess :=
  Ok {| returncode := rc; stdout := out; stderr := err |}.

Definition run_script (sc : Script) (w : World (list str))
    : result CompletedProcess * World (list str) :=
  match crash sc with
  | Some err => (done 1 [] err, w)
  | None =>
      match List.find (fun m => negb (bool_decide (m ∈ ext w))) (needs sc) with
      | Some m => (done 1 [] (traceback m), w)
      | None => (done 0 (output sc) [], w)
      end
  end.

(** The directories: the working directory, spelled with or without a
    final slash, is the only one, and it is there from the start. *)
Definition os_path_isdir (path : str) (w : World (list str)) : bool :=
  bool_decide (path = cwd w \/ path = cwd w ++ lit "/").

Definition os_makedirs_creates (path : str) (w : World (list str)) : list str := ext w.

(** Every write reaches the file. *)
Definition write_fails (path text : str) (w : World (list str)) : option (exc * str) :=
  None.

Definition no_main (path : str) : str :=
  lit "/usr/bin/python3: can't find '__main__' module in "
  ++ repr (fun _ => true) path ++ NL.

Definition subprocess_run (sc : Script) (index : list str) (argv : list str)
    (w : World (list str)) : result CompletedProcess * World (list str) :=
  match argv with
  | [_; path] =>
      if bool_decide (is_Some (fs w !! path)) then run_script sc w
      else if os_path_isdir path w then (done 1 [] (no_main path), w)
      else (done 2 [] (lit "can't open file"), w)
  | [_; _; _; _; m] =>
      if bool_decide (m ∈ index)
      then (done 0 [] [], {| ext := m :: ext w; fs := fs w; cwd := cwd w |})
      else (done 1 [] (lit "ERROR: No matching distribution found for " ++ m), w)
  | [_; _; _; _; m; _] =>
      (done 0 [] [],
       {| ext := List.filter (fun x => negb (bool_decide (x = m))) (ext w);
          fs := fs w; cwd := cwd w |})
  | _ => (Raise (Exc OSError (lit "[Errno 8] Exec format error")), w)
  end.

(** The prompt of a request. *)
Definition prompt_of (params : gmap str pyval) : str :=
  match params !! lit "messages" with
  | Some (PList [PDict d]) =>
      match dict_get (lit "content") d with
      | Some (PStr text) => text
      | _ => []
      end
  | _ => []
  end.

(** The hosted model: it answers the request for a file name with [name]
    and every other request with [code]. *)
Definition chat_create (code name : str) (c : Client) (params : gmap str pyval)
    (e : list str) : result ChatCompletion * list str :=
  (Ok {| choices :=
           [ {| message_content :=
                  Some (if startswith (lit "Based on") (prompt_of params)
                        then name else code) |} ] |},
   e).

Definition os_refuses (locked : bool) (call : syscall)
    (w : World (list str)) : option exc :=
  match call with
  | SysRemove path =>
      if locked
      then Some (Exc OSError (lit "[Errno 13] Permission denied: " ++ repr (fun _ => true) path))
      else None
  | _ => None
  end.

Definition isprintable : N -> bool := fun _ => true.

Definition duplicate_keyword (callee k : str) : str :=
  callee ++ lit "() got multiple values for keyword argument '" ++ k ++ lit "'".

Definition generate_code_prompt (p : str) : result str :=
  Ok (lit "Write Python code for: " ++ p).

(** An environment with both keys set, and one with the Groq key only. *)
Definition env_both (name : str) : option str :=
  if bool_decide (name = lit "GROQ_API_KEY") then Some (lit "gsk-test")
  else if bool_decide (name = lit "OPENAI_API_KEY") then Some (lit "sk-test")
  else None.

Definition env_groq (name : str) : option str :=
  if bool_decide (name = lit "GROQ_API_KEY") then Some (lit "gsk-test") else None.

Definition cfg_both : ConfigModule :=
  {| DEFAULT_PROVIDER := lit "groq";
     API_KEYS := [(lit "groq", lit "gsk-test"); (lit "openai", lit "sk-test")] |}.

Definition cfg_groq : ConfigModule :=
  {| DEFAULT_PROVIDER := lit "groq"; API_KEYS := [(lit "groq", lit "gsk-test")] |}.

(** The process at its start, in [/work], with no file and no package. *)
Definition p0 : Proc (list str) :=
  {| world := {| ext := []; fs := ∅; cwd := lit "/work" |};
     _providers := initial_providers; next_id := 0; trace := [] |}.

(** The hosted model streaming an answer delta by delta. *)
Definition chat_create_stream (deltas : list (option str)) (c : Client)
    (params : gmap str pyval) (e : list str) : result Stream * list str :=
  (Ok {| chunks :=
           List.map (fun d => {| chunk_choices := [ {| delta_content := d |} ] |}) deltas;
         stream_error := None |},
   e).

Definition groq_client : Client :=
  {| client_sdk := GroqProvider; client_id := 0; client_api_key := lit "gsk-test" |}.

Definition groq_provider : Provider :=
  {| provider_cls := GroqProvider; api_key := lit "gsk-test";
     provider_model := PStr (lit "llama-3.1-70b-versatile");
     provider_kwargs := ∅; _client := groq_client |}.

(** The object that [ChatPython()] builds in [p0] when both keys are set,
    and the process after the construction. *)
Definition a0 : Assistant :=
  {| provider_name := lit "groq";
     model := Some (lit "llama-3.1-70b-versatile");
     temperature := 1 # 2; max_tokens := 1000; top_p := 1; kwargs := ∅;
     provider_config :=
       <[lit "api_key" := lit "gsk-test"]>
         (default ∅ (dict_get (lit "groq") AI_PROVIDERS));
     _provider := Some groq_provider;
     generated_code := []; prompt := []; file_name := [];
     root_directory := lit "/work" |}.

Definition p1 : Proc (list str) :=
  {| world := world p0; _providers := initial_providers; next_id := 1;
     trace := [EvNewClient groq_client] |}.

Definition start : State (list str) := {| self := a0; proc := p1 |}.

(** The answer of the model to the request for code, and the file name. *)
Definition answer : str :=
  lit "```python" ++ NL ++ lit "print(42)" ++ NL ++ lit "```".

Definition main_py : str := lit "main.py".

(** A state in which the artifact is written and the loop can start. *)
Definition written : State (list str) :=
  {| self := with_file_name main_py (with_generated_code (NL ++ lit "print(42)") a0);
     proc :=
       {| world :=
            {| ext := [];
               fs := {[ lit "/work/main.py" := NL ++ lit "print(42)" ]};
               cwd := lit "/work" |};
          _providers := initial_providers; next_id := 1; trace := [] |} |}.

(** Scripts: one that prints, one that prints nothing, one that needs a
    package, one that needs two, one that divides by zero, and one whose
    failure names a module without being a [ModuleNotFoundError]. *)
Definition prints : Script :=
  {| needs := []; crash := None; output := lit "42" ++ NL |}.

Definition quiet : Script := {| needs := []; crash := None; output := [] |}.

Definition needs_one : Script :=
  {| needs := [lit "requests"]; crash := None; output := lit "42" ++ NL |}.

Definition needs_two : Script :=
  {| needs := [lit "requests"; lit "yaml"]; crash := None; output := lit "42" ++ NL |}.

Definition division_text : str := lit "ZeroDivisionError: division by zero".

Definition divides : Script :=
  {| needs := []; crash := Some division_text; output := [] |}.

Definition import_error_text : str := lit "ImportError: No module named 'foo'".

Definition import_error : Script :=
  {| needs := []; crash := Some import_error_text; output := [] |}.

Definition index : list str := [lit "requests"; lit "yaml"; lit "foo"].

(** [generate_code] in this world, on the object just built. *)
Definition generate (sc : Script) (locked : bool) (w r cim cg : bool)
    : result str * State (list str) :=
  generate_code exe (subprocess_run sc index) (chat_create answer main_py)
    (os_refuses locked) os_path_isdir os_makedirs_creates write_fails isprintable
    generate_code_prompt (lit "print 42") w r cim cg start.

(** The object after [switch_provider("openai")]. *)
Definition switched : result unit * State (list str) :=
  switch_provider isprintable duplicate_keyword true true cfg_both (lit "openai") ∅ start.

(** The states between the steps of [generate]. *)
Definition s2 : State (list str) :=
  (generation (chat_create answer main_py) generate_code_prompt (lit "print 42") start).2.

Definition s3 : State (list str) :=
  (_write_code_to_file (chat_create answer main_py) (os_refuses false) os_path_isdir
     os_makedirs_creates write_fails isprintable s2).2.

Definition s4 (sc : Script) : State (list str) :=
  (_run_generated_code exe (subprocess_run sc index) os_path_isdir true s3).2.

(** The loop in this world, on the written artifact. *)
Definition loop (sc : Script) (cim : bool) : result str * State (list str) :=
  _run_generated_code exe (subprocess_run sc index) os_path_isdir cim written.

(** A script that needs a package the index does not offer. *)
Definition needs_unknown : Script :=
  {| needs := [lit "nosuchpkg"]; crash := None; output := lit "42" ++ NL |}.

(** The hosted model out of reach. *)
Definition chat_down (c : Client) (params : gmap str pyval) (e : list str)
    : result ChatCompletion * list str :=
  (Raise (Exc OSError (lit "Connection error.")), e).

(** A stream with a chunk that has no choice after two deltas, and a stream
    that breaks after two deltas. *)
Definition delta (d : str) : ChatCompletionChunk :=
  {| chunk_choices := [ {| delta_content := Some d |} ] |}.

Definition chat_create_stream_cut (c : Client) (params : gmap str pyval)
    (e : list str) : result Stream * list str :=
  (Ok {| chunks := [delta (lit "he"); delta (lit "llo"); {| chunk_choices := [] |};
                    delta (lit "!")];
         stream_error := None |},
   e).

(** The object after a switch to a provider that does not exist, and the
    process after a failed request. *)
Definition misswitched : result unit * State (list str) :=
  switch_provider isprintable duplicate_keyword true true cfg_both (lit "anthropic") ∅ start.

(** The error of the loop when the path of the artifact is the working
    directory. *)
Definition directory_failure : exc :=
  Exc Exception
    (RED ++ lit "Cannot run code: "
     ++ (RED ++ lit "Script error:" ++ NL ++ no_main (lit "/work/") ++ RESET) ++ RESET).

End Fixture.

Example import_both : import_config Fixture.isprintable Fixture.env_both = Ok Fixture.cfg_both.
Proof. vm_compute. reflexivity. Qed.

Example import_groq : import_config Fixture.isprintable Fixture.env_groq = Ok Fixture.cfg_groq.
Proof. vm_compute. reflexivity. Qed.

Example construction :
  ChatPython__init__ Fixture.isprintable Fixture.duplicate_keyword true true
    Fixture.cfg_both None None (1 # 2) 1000 1 ∅ Fixture.p0
  = (Ok Fixture.a0, Fixture.p1).
Proof. vm_compute. reflexivity. Qed.

Example remove_prefix_answer :
  _remove_python_prefix Fixture.answer = NL ++ lit "print(42)".
Proof. vm_compute. reflexivity. Qed.

Example remove_prefix_plain :
  _remove_python_prefix (lit "x = 1" ++ NL ++ lit "print(x)") = lit "x = 1" ++ NL ++ lit "print(x)".
Proof. vm_compute. reflexivity. Qed.

(** ** The loop, run *)

Import Fixture.

(** C4 on a script that divides by zero. *)
Lemma unmatched_failure_witness :
  (loop divides true).1
    = Raise (Exc Exception
        (RED ++ lit "Cannot run code: "
         ++ (RED ++ lit "Script error:" ++ NL ++ division_text ++ RESET) ++ RESET))
  /\ child_processes (trace (proc (loop divides true).2))
     = child_processes (trace (proc written)) ++ [[exe; artifact_path (self written)]].
Proof.
  unfold loop.
  apply (unmatched_failure_is_reported exe (subprocess_run divides index) os_path_isdir written true
           {| returncode := 1; stdout := []; stderr := division_text |}
           (world (proc written))).
  - vm_compute. eauto.
  - vm_compute. reflexivity.
  - discriminate.
  - vm_compute. reflexivity.
Defined.

(** C3 on a script that needs two packages: the second one is reported
    and not installed. *)
Lemma second_failure_witness :
  (loop needs_two true).1
    = Raise (Exc Exception
        (RED ++ lit "Cannot run code: "
         ++ (RED ++ lit "Error after installing " ++ lit "requests" ++ lit ":" ++ RESET
             ++ NL ++ traceback (lit "yaml")) ++ RESET))
  /\ child_processes (trace (proc (loop needs_two true).2))
     = child_processes (trace (proc written))
       ++ [[exe; artifact_path (self written)]; pip_install exe (lit "requests");
           [exe; artifact_path (self written)]].
Proof.
  unfold loop.
  apply (proj2 (second_failure_is_final exe (subprocess_run needs_two index)
                  os_path_isdir)
           written true (lit "requests")
           {| returncode := 1; stdout := []; stderr := traceback (lit "requests") |}
           {| returncode := 0; stdout := []; stderr := [] |}
           {| returncode := 1; stdout := []; stderr := traceback (lit "yaml") |}
           (world (proc written))
           {| ext := [lit "requests"]; fs := fs (world (proc written)); cwd := lit "/work" |}
           {| ext := [lit "requests"]; fs := fs (world (proc written)); cwd := lit "/work" |}).
  - vm_compute. eauto.
  - vm_compute. reflexivity.
  - discriminate.
  - vm_compute. reflexivity.
  - vm_compute. reflexivity.
  - vm_compute. reflexivity.
  - reflexivity.
  - vm_compute. reflexivity.
  - discriminate.
Defined.

(** C2 (as amended) on a script that needs one package. *)
Lemma missing_module_witness :
  (loop needs_one true).1 = Ok (lit "42" ++ NL)
  /\ child_processes (trace (proc (loop needs_one true).2))
     = child_processes (trace (proc written))
       ++ [[exe; artifact_path (self written)]; pip_install exe (lit "requests");
           [exe; artifact_path (self written)]]
       ++ [pip_uninstall exe (lit "requests")].
Proof.
  unfold loop.
  apply (missing_module_is_installed_and_retried exe (subprocess_run needs_one index) os_path_isdir
           written true (lit "requests")
           {| returncode := 1; stdout := []; stderr := traceback (lit "requests") |}
           {| returncode := 0; stdout := []; stderr := [] |}
           {| returncode := 0; stdout := lit "42" ++ NL; stderr := [] |}
           (world (proc written))
           {| ext := [lit "requests"]; fs := fs (world (proc written)); cwd := lit "/work" |}
           {| ext := [lit "requests"]; fs := fs (world (proc written)); cwd := lit "/work" |}).
  - vm_compute. eauto.
  - vm_compute. reflexivity.
  - discriminate.
  - vm_compute. reflexivity.
  - vm_compute. reflexivity.
  - vm_compute. reflexivity.
  - reflexivity.
  - vm_compute. reflexivity.
  - reflexivity.
  - intros _. vm_compute. reflexivity.
Defined.

(** C2 as stated fails: the error stream holds the text
    [No module named 'foo'], yet the loop starts no installer and runs the
    script once only, because the stream does not hold [ModuleNotFoundError]. *)
Lemma text_alone_installs_nothing :
  subprocess_run import_error index [exe; artifact_path (self written)]
    (world (proc written))
    = (done 1 [] import_error_text, world (proc written))
  /\ contains (lit "No module named 'foo'") import_error_text = true
  /\ Re.search import_error_text = Some (lit "foo")
  /\ (loop import_error true).1
     = Raise (Exc Exception
         (RED ++ lit "Cannot run code: "
          ++ (RED ++ lit "Script error:" ++ NL ++ import_error_text ++ RESET) ++ RESET))
  /\ child_processes (trace (proc (loop import_error true).2))
     = [[exe; lit "/work/main.py"]].
Proof. vm_compute. repeat split; reflexivity. Qed.

(** ** [generate_code], run *)

(** C9 with [run_code] set and [write_code_to_file] not: the fenced answer
    of the model comes back as its body, after an empty first line. *)
Lemma no_write_witness :
  generate prints false false true true true = (Ok (NL ++ lit "print(42)"), s2).
Proof.
  unfold generate.
  destruct (proj1 (no_write_means_no_run exe (subprocess_run prints index)
                     (chat_create answer main_py) (os_refuses false) os_path_isdir
                     os_makedirs_creates write_fails isprintable
                     generate_code_prompt (lit "print 42") true true true start)
              answer s2 ltac:(vm_compute; reflexivity))
    as (value & Hrun & Hvalue & _).
  rewrite Hrun, Hvalue. reflexivity.
Defined.

(** C10 on a script that prints nothing. *)
Lemma empty_output_witness :
  (generate quiet false true true true true).1 = Ok (_remove_python_prefix answer).
Proof.
  unfold generate.
  apply (proj1 (empty_output_returns_source exe (subprocess_run quiet index)
                  (chat_create answer main_py) (os_refuses false) os_path_isdir os_makedirs_creates
                  write_fails isprintable
                  generate_code_prompt (lit "print 42") answer [] true true
                  start s2 s3 (s4 quiet)
                  ltac:(vm_compute; reflexivity) ltac:(vm_compute; reflexivity)
                  ltac:(vm_compute; reflexivity))).
  reflexivity.
Defined.

(** C1 (as amended) on a script that succeeds. *)
Lemma artifact_removed_witness :
  (generate prints false true true true true).1 = Ok (lit "42" ++ NL)
  /\ fs (world (proc (generate prints false true true true true).2))
       !! artifact_path (self (s4 prints)) = None
  /\ trace (proc (generate prints false true true true true).2)
     = trace (proc (s4 prints))
       ++ [EvSys (SysRemove (artifact_path (self (s4 prints))));
           EvPrint (YELLOW ++ BROOM ++ lit " Generated file '"
                    ++ file_name (self (s4 prints)) ++ lit "' deleted successfully."
                    ++ RESET)].
Proof.
  unfold generate.
  destruct (proj1 (artifact_removed_after_success exe (subprocess_run prints index)
                     (chat_create answer main_py) (os_refuses false) os_path_isdir
                     os_makedirs_creates write_fails isprintable
                     generate_code_prompt (lit "print 42") answer true
                     start s2 s3
                     ltac:(vm_compute; reflexivity) ltac:(vm_compute; reflexivity))
                  (lit "42" ++ NL) (s4 prints) ltac:(vm_compute; reflexivity))
    as (Hvalue & Hgone & _ & _ & Hlog).
  split; [exact Hvalue|]. split; [apply Hgone; reflexivity|].
  apply Hlog; [reflexivity | vm_compute; eauto].
Defined.

(** C1 as stated fails: with [cleanup_generated_file], a script that fails
    leaves [generate_code] with an error, and the artifact is still there:
    no removal was attempted. *)
Lemma artifact_left_after_failure :
  (generate divides false true true true true).1
    = Raise (Exc Exception
        (RED ++ lit "Cannot run code: "
         ++ (RED ++ lit "Script error:" ++ NL ++ division_text ++ RESET) ++ RESET))
  /\ artifact_path (self (generate divides false true true true true).2)
     = lit "/work/main.py"
  /\ fs (world (proc (generate divides false true true true true).2))
       !! lit "/work/main.py" = Some (NL ++ lit "print(42)")
  /\ file_calls (trace (proc (generate divides false true true true true).2))
     = [SysMakedirs (lit "/work/"); SysOpenW (lit "/work/main.py")].
Proof. vm_compute. repeat split; reflexivity. Qed.

(** A removal that the system refuses is reported and changes nothing
    else: the value is the output of the run, and the artifact stays. *)
Example refused_removal :
  (generate prints true true true true true).1 = Ok (lit "42" ++ NL)
  /\ is_Some (fs (world (proc (generate prints true true true true true).2))
               !! lit "/work/main.py")
  /\ last (trace (proc (generate prints true true true true true).2))
     = Some (EvPrint
         (RED ++ WARNING_SIGN ++ lit " Warning: Could not delete generated file 'main.py': "
          ++ lit "[Errno 13] Permission denied: '/work/main.py'" ++ RESET)).
Proof. vm_compute. repeat split; try reflexivity. eauto. Qed.

(** ** Providers, run *)

(** C5 (as amended) on a text with spaces at both ends, streamed in four
    chunks of which two are empty. *)
Lemma streaming_trimmed_witness :
  exists ys,
    (get_streaming_completion
       (chat_create_stream [Some (lit "  he"); None; Some []; Some (lit "llo ")])
       groq_provider (lit "hi") ∅ p1).1 = (ys, None)
    /\ (get_completion (chat_create (lit "  hello ") main_py) groq_provider (lit "hi") ∅ p1).1
       = Ok (strip (concat ys)).
Proof.
  apply (streaming_trimmed_is_blocking
           (chat_create (lit "  hello ") main_py)
           (chat_create_stream [Some (lit "  he"); None; Some []; Some (lit "llo ")])
           groq_provider (lit "hi") ∅ p1 p1
           {| choices := [ {| message_content := Some (lit "  hello ") |} ] |}
           {| chunks :=
                List.map (fun d => {| chunk_choices := [ {| delta_content := d |} ] |})
                  [Some (lit "  he"); None; Some []; Some (lit "llo ")];
              stream_error := None |}
           [] []).
  - vm_compute. reflexivity.
  - vm_compute. reflexivity.
  - exists (lit "  hello "). split; vm_compute; reflexivity.
Defined.

(** C5 as stated fails: for the text [" hi"] the blocking variant returns
    ["hi"], and the chunks of the streaming variant make [" hi"]. *)
Lemma streaming_is_not_trimmed :
  same_response
    {| choices := [ {| message_content := Some (lit " hi") |} ] |}
    {| chunks := [ {| chunk_choices := [ {| delta_content := Some (lit " hi") |} ] |} ];
       stream_error := None |}
  /\ (get_completion (chat_create (lit " hi") main_py) groq_provider (lit "hi") ∅ p1).1
     = Ok (lit "hi")
  /\ (get_streaming_completion (chat_create_stream [Some (lit " hi")])
        groq_provider (lit "hi") ∅ p1).1 = ([lit " hi"], None)
  /\ concat [lit " hi"] <> lit "hi".
Proof.
  split; [exists (lit " hi"); split; reflexivity|].
  vm_compute. repeat split; try reflexivity. discriminate.
Qed.

(** C7 (as amended) on the name [anthropic]. *)
Lemma unknown_provider_witness :
  exists msg,
    get_provider isprintable duplicate_keyword true true cfg_both
      (Some (lit "anthropic")) ∅ p0
    = (Raise (Exc ValueError msg), p0)
    /\ msg = lit "Unknown provider: " ++ lit "anthropic" ++ lit ". Available: "
              ++ repr_list isprintable (keys AI_PROVIDERS)
    /\ (keys (_providers p0) = keys initial_providers ->
        msg = lit "Unknown provider: " ++ lit "anthropic" ++ lit ". Available: "
              ++ repr_list isprintable (keys (_providers p0))).
Proof.
  apply (unknown_provider_is_refused isprintable duplicate_keyword true true cfg_both
           (lit "anthropic") ∅ p0).
  - discriminate.
  - apply builtin_registered_initial.
  - reflexivity.
Defined.

Example unknown_provider_message :
  get_provider isprintable duplicate_keyword true true cfg_both
    (Some (lit "anthropic")) ∅ p0
  = (Raise (Exc ValueError
       (lit "Unknown provider: anthropic. Available: ['groq', 'openai']")), p0).
Proof. vm_compute. reflexivity. Qed.

(** C7 as stated fails: the empty name is in no registry, and a request for
    it is served with the default provider's configuration; and once a
    further provider is registered, the message for an unknown name still
    lists the two names of the table. *)
Lemma empty_name_is_served :
  dict_mem [] (_providers p0) = false
  /\ (get_provider isprintable duplicate_keyword true true cfg_both (Some []) ∅ p0).1
     = Ok groq_provider
  /\ keys (_providers (register_provider (lit "local") (ProviderClass GroqProvider) p0).2)
     = [lit "groq"; lit "openai"; lit "local"]
  /\ (get_provider isprintable duplicate_keyword true true cfg_both
        (Some (lit "mistral")) ∅ (register_provider (lit "local") (ProviderClass GroqProvider) p0).2).1
     = Raise (Exc ValueError
         (lit "Unknown provider: mistral. Available: ['groq', 'openai']")).
Proof. vm_compute. repeat split; reflexivity. Qed.

(** C8 (as amended) on [openai] when only the Groq key is set. *)
Lemma missing_api_key_witness :
  get_provider isprintable duplicate_keyword true true cfg_groq (Some (lit "openai")) ∅ p0
    = (Raise (Exc ValueError (lit "API key not found for provider: " ++ lit "openai")), p0)
  /\ ChatPython__init__ isprintable duplicate_keyword true true cfg_groq
       (Some (lit "openai")) None (1 # 2) 1000 1 ∅ p0
    = (Raise (Exc ValueError (lit "API key not found for provider: " ++ lit "openai")), p0).
Proof.
  apply (missing_api_key_is_refused isprintable duplicate_keyword true true cfg_groq
           (lit "openai") (default ∅ (dict_get (lit "openai") AI_PROVIDERS)) ∅ p0
           None (1 # 2) 1000 1).
  - reflexivity.
  - reflexivity.
Defined.

(** C8 as stated fails: the message names the provider; the name of the
    environment variable that is not set is not in it. *)
Lemma message_names_the_provider :
  dict_get (lit "openai") AI_PROVIDERS ≫= (fun entry => entry !! lit "api_key_env")
    = Some (lit "OPENAI_API_KEY")
  /\ dict_get (lit "openai") (API_KEYS cfg_groq) = None
  /\ get_provider isprintable duplicate_keyword true true cfg_groq (Some (lit "openai")) ∅ p0
     = (Raise (Exc ValueError (lit "API key not found for provider: openai")), p0)
  /\ contains (lit "OPENAI_API_KEY") (lit "API key not found for provider: openai") = false.
Proof. vm_compute. repeat split; reflexivity. Qed.

(** X3 on a provider that does not exist: the check is [False]. *)
Example unknown_provider_is_not_valid :
  (validate_provider (chat_create answer main_py) isprintable duplicate_keyword true true
     cfg_both (Some (lit "anthropic")) p0).1 = Ok false.
Proof. vm_compute. reflexivity. Qed.

(** X1 on the switch from Groq to OpenAI. *)
Lemma switch_new_client_witness :
  exists provider,
    _provider (self switched.2) = Some provider
    /\ client_id (_client provider) = next_id (proc start)
    /\ next_id (proc switched.2) = S (next_id (proc start))
    /\ provider_name (self switched.2) = lit "openai"
    /\ forall text more,
         trace (proc (_get_completion (chat_create answer main_py) text more switched.2).2)
         = trace (proc switched.2)
           ++ [EvCreate (_client provider)
                 (request_params provider text false
                    (completion_kwargs (self switched.2) more))].
Proof.
  apply (switch_builds_a_new_client (chat_create answer main_py) isprintable
           duplicate_keyword true true cfg_both (lit "openai") ∅ start switched.2).
  change (switched = (Ok tt, switched.2)).
  assert (switched.1 = Ok tt) as H1 by (vm_compute; reflexivity).
  rewrite (surjective_pairing switched) at 1. rewrite H1. reflexivity.
Defined.

(** C6, where the code departs from it: an assistant built for Groq with
    the default model and switched to OpenAI gets a new OpenAI client, but
    the provider it builds is given Groq's default model, which is also the
    model of the next request (sent through client 1, the new one), and
    [provider_config] is still Groq's. *)
Lemma switch_keeps_the_previous_model :
  (switch_provider isprintable duplicate_keyword true true cfg_both (lit "openai") ∅ start).1
    = Ok tt
  /\ _provider
       (self (switch_provider isprintable duplicate_keyword true true cfg_both
                (lit "openai") ∅ start).2)
     = Some {| provider_cls := OpenAIProvider; api_key := lit "sk-test";
               provider_model := PStr (lit "llama-3.1-70b-versatile");
               provider_kwargs := ∅;
               _client := {| client_sdk := OpenAIProvider; client_id := 1;
                             client_api_key := lit "sk-test" |} |}
  /\ dict_get (lit "openai") AI_PROVIDERS ≫= (fun entry => entry !! lit "default_model")
     = Some (lit "gpt-4")
  /\ provider_config
       (self (switch_provider isprintable duplicate_keyword true true cfg_both
                (lit "openai") ∅ start).2) !! lit "api_key_env"
     = Some (lit "GROQ_API_KEY")
  /\ (fun e => match e with
               | Some (EvCreate c params) => Some (client_id c, params !! lit "model")
               | _ => None
               end)
       (last (trace (proc
          (_get_completion (chat_create answer main_py) (lit "hi") ∅
             (switch_provider isprintable duplicate_keyword true true cfg_both
                (lit "openai") ∅ start).2).2)))
     = Some (1%nat, Some (PStr (lit "llama-3.1-70b-versatile"))).
Proof. vm_compute. repeat split; reflexivity. Qed.

(** ** Further runs *)

Lemma pair_of_fst {A B : Type} (x : A * B) (a : A) : x.1 = a -> x = (a, x.2).
Proof. destruct x as [a' b]. simpl. intros ->. reflexivity. Qed.

(** X5 on a provider registered under the name [local]. *)
Lemma registered_name_witness :
  get_provider isprintable duplicate_keyword true true cfg_both (Some (lit "local")) ∅
    (register_provider (lit "local") (ProviderClass GroqProvider) p0).2
  = (Raise (Exc ValueError
       (lit "Unknown provider: " ++ lit "local" ++ lit ". Available: "
        ++ repr_list isprintable (keys AI_PROVIDERS))),
     (register_provider (lit "local") (ProviderClass GroqProvider) p0).2).
Proof.
  apply (proj2 (registered_name_outside_the_table isprintable duplicate_keyword true true
                  cfg_both (lit "local") GroqProvider ∅ p0
                  ltac:(discriminate) ltac:(reflexivity))).
Defined.

(** X6 on a request for OpenAI after the construction for Groq. *)
Lemma get_provider_witness :
  get_provider isprintable duplicate_keyword true true cfg_both (Some (lit "openai")) ∅ p1
  = (Ok {| provider_cls := OpenAIProvider; api_key := lit "sk-test";
           provider_model :=
             default
               (of_option (default ∅ (dict_get (lit "openai") AI_PROVIDERS)
                           !! lit "default_model"))
               ((∅ : gmap str pyval) !! lit "model");
           provider_kwargs := delete (lit "model") ∅;
           _client := {| client_sdk := OpenAIProvider; client_id := next_id p1;
                         client_api_key := lit "sk-test" |} |},
     {| world := world p1; _providers := _providers p1; next_id := S (next_id p1);
        trace := trace p1
                 ++ [EvNewClient {| client_sdk := OpenAIProvider; client_id := next_id p1;
                                    client_api_key := lit "sk-test" |}] |}).
Proof.
  apply (get_provider_builds isprintable duplicate_keyword true true cfg_both
           (lit "openai") (lit "sk-test")
           (default ∅ (dict_get (lit "openai") AI_PROVIDERS)) OpenAIProvider ∅ p1).
  - reflexivity.
  - reflexivity.
  - discriminate.
  - reflexivity.
  - reflexivity.
  - reflexivity.
  - reflexivity.
Defined.

(** X7 on Groq when the [groq] package is not installed. *)
Lemma missing_library_witness :
  get_provider isprintable duplicate_keyword false true cfg_both (Some (lit "groq")) ∅ p0
    = (Raise (Exc ImportError (library_missing GroqProvider)), p0)
  /\ ChatPython__init__ isprintable duplicate_keyword false true cfg_both
       (Some (lit "groq")) None (1 # 2) 1000 1 ∅ p0
     = (Raise (Exc ValueError
          (lit "Failed to initialize provider '" ++ lit "groq" ++ lit "': "
           ++ library_missing GroqProvider ++ lit ". Available providers: "
           ++ repr_list isprintable (keys (_providers p0)))), p0).
Proof.
  apply (missing_library_is_reported isprintable duplicate_keyword false true cfg_both
           (lit "groq") (lit "gsk-test")
           (default ∅ (dict_get (lit "groq") AI_PROVIDERS)) GroqProvider ∅ p0
           None (1 # 2) 1000 1).
  - reflexivity.
  - reflexivity.
  - discriminate.
  - reflexivity.
  - reflexivity.
  - reflexivity.
  - reflexivity.
  - reflexivity.
  - reflexivity.
  - reflexivity.
Defined.

(** X8 on a switch to a provider that does not exist. *)
Lemma failed_switch_witness :
  _provider (self misswitched.2) = Some groq_provider
  /\ provider_name (self misswitched.2) = lit "anthropic"
  /\ proc misswitched.2 = proc start.
Proof.
  destruct (failed_switch_keeps_the_provider isprintable duplicate_keyword true true
              cfg_both (lit "anthropic") ∅ start misswitched.2
              (Exc ValueError
                 (lit "Failed to initialize provider 'anthropic': Unknown provider: anthropic. Available: ['groq', 'openai']. Available providers: ['groq', 'openai']"))
              ltac:(apply pair_of_fst; vm_compute; reflexivity))
    as (_ & Hprovider & Hname & _ & Hproc).
  split; [exact Hprovider | split; [exact Hname | exact Hproc]].
Defined.

(** X9 on a switch that names the model. *)
Lemma model_keyword_witness :
  (switch_provider isprintable duplicate_keyword true true cfg_both (lit "openai")
     {[ lit "model" := PStr (lit "gpt-4") ]} start).1
  = Raise (Exc ValueError
      (lit "Failed to initialize provider '" ++ lit "openai" ++ lit "': "
       ++ duplicate_keyword (lit "get_provider") (lit "model")
       ++ lit ". Available providers: "
       ++ repr_list isprintable (keys (_providers (proc start))))).
Proof.
  apply (proj1 (model_keyword_breaks_switch isprintable duplicate_keyword true true
                  cfg_both (lit "openai") {[ lit "model" := PStr (lit "gpt-4") ]} start
                  ltac:(vm_compute; eauto))).
Defined.

(** X10 when the hosted model is out of reach. *)
Lemma completion_error_witness :
  exists detail,
    lit "AI completion error (groq): Groq API error: Connection error."
    = lit "AI completion error (" ++ provider_name (self start) ++ lit "): "
      ++ match _provider (self start) with
         | Some provider =>
             api_name (provider_cls provider) ++ lit " API error: " ++ detail
         | None => detail
         end.
Proof.
  apply (completion_error_names_the_provider chat_down (lit "hi") ∅ start
           (_get_completion chat_down (lit "hi") ∅ start).2
           (Exc Exception
              (lit "AI completion error (groq): Groq API error: Connection error."))
           ltac:(apply pair_of_fst; vm_compute; reflexivity)).
Defined.

(** X12 on [ChatPython()] with both keys set. *)
Lemma constructed_model_witness :
  provider_name a0 = or_else None (DEFAULT_PROVIDER cfg_both)
  /\ get_provider_config isprintable cfg_both (Some (provider_name a0))
     = Ok (provider_config a0)
  /\ model a0 = provider_config a0 !! lit "default_model".
Proof.
  destruct (constructed_model isprintable duplicate_keyword true true cfg_both
              None None (1 # 2) 1000 1 ∅ p0 p1 a0 construction)
    as (Hname & Hconfig & Hmodel & _).
  split; [exact Hname | split; [exact Hconfig | exact Hmodel]].
Defined.

(** X14 on a stream whose third chunk has no choice. *)
Lemma stream_cut_witness :
  exists ys,
    (get_streaming_completion chat_create_stream_cut groq_provider (lit "hi") ∅ p1).1
    = (ys, Some (api_error groq_provider (Exc IndexError (lit "list index out of range"))))
    /\ concat ys = lit "hello".
Proof.
  refine (proj1 (stream_fails_after_partial_output chat_create_stream_cut groq_provider
                   (lit "hi") ∅ p1
                   {| chunks := [delta (lit "he"); delta (lit "llo");
                                 {| chunk_choices := [] |}; delta (lit "!")];
                      stream_error := None |}
                   [] (lit "hello") _)
            [delta (lit "he"); delta (lit "llo")] {| chunk_choices := [] |}
            [delta (lit "!")] _ _ _); reflexivity.
Defined.

(** X16 on a block of two lines. *)
Lemma fenced_block_witness :
  _remove_python_prefix
    (lit "```python" ++ NL ++ join NL [lit "import os"; lit "print(os.getcwd())"]
     ++ NL ++ lit "```")
  = NL ++ join NL [lit "import os"; lit "print(os.getcwd())"].
Proof.
  apply (fenced_block_is_unwrapped [lit "import os"; lit "print(os.getcwd())"]).
  - discriminate.
  - vm_compute.
    repeat first [apply List.Forall_nil | apply List.Forall_cons | split
                 | reflexivity | discriminate].
Defined.

(** X17 on the name that the model answers with. *)
Lemma generated_file_name_witness : (34 ∉ main_py) /\ (10 ∉ main_py).
Proof.
  apply (generated_file_name_is_one_line (chat_create answer main_py) s2
           (_generate_file_name (chat_create answer main_py) s2).2 main_py).
  apply pair_of_fst. vm_compute. reflexivity.
Defined.

(** X18 on the generated code of the run. *)
Lemma written_artifact_witness :
  fs (world (proc s3)) !! artifact_path (self s3) = Some (generated_code (self s3))
  /\ generated_code (self s3) = generated_code (self s2)
  /\ generated_code (self s2) <> []
  /\ root_directory (self s3) = root_directory (self s2).
Proof.
  apply (written_artifact_is_found (chat_create answer main_py) (os_refuses false) os_path_isdir
           os_makedirs_creates write_fails isprintable s2 s3).
  unfold s3. apply pair_of_fst. vm_compute. reflexivity.
Defined.

(** X19 on the object just built, which has no code yet. *)
Lemma empty_code_witness :
  (exists e, (_write_code_to_file (chat_create answer main_py) (os_refuses false) os_path_isdir
           os_makedirs_creates write_fails isprintable start).1
             = Raise e)
  /\ fs (world (proc (_write_code_to_file (chat_create answer main_py)
                        (os_refuses false) os_path_isdir
           os_makedirs_creates write_fails isprintable start).2))
     = fs (world (proc start)).
Proof.
  apply (empty_code_is_not_written (chat_create answer main_py) (os_refuses false) os_path_isdir
           os_makedirs_creates write_fails isprintable start).
  reflexivity.
Defined.

(** X20 on the object just built, which has no file name yet: the path of
    the artifact is the working directory, so the interpreter is started on
    a directory and its failure is the loop's. *)
Lemma loop_failure_witness :
  exc_type directory_failure = Exception
  /\ path_exists os_path_isdir (artifact_path (self start)) (world (proc start)) = true
  /\ exists detail,
       exc_str directory_failure = RED ++ lit "Cannot run code: " ++ detail ++ RESET.
Proof.
  destruct (loop_failures exe (subprocess_run prints index) os_path_isdir true start
              (_run_generated_code exe (subprocess_run prints index) os_path_isdir
                 true start).2
              directory_failure
              ltac:(apply pair_of_fst; vm_compute; reflexivity))
    as [(Hmissing & _) | Hthere]; [discriminate Hmissing | exact Hthere].
Defined.

(** X21 on a script that needs a package the index does not offer. *)
Lemma failed_install_witness :
  (loop needs_unknown true).1
    = Raise (Exc Exception
        (RED ++ lit "Cannot run code: "
         ++ (RED ++ lit "Failed to install '" ++ lit "nosuchpkg" ++ lit "':" ++ NL
             ++ lit "ERROR: No matching distribution found for nosuchpkg"
             ++ RESET) ++ RESET))
  /\ child_processes (trace (proc (loop needs_unknown true).2))
     = child_processes (trace (proc written))
       ++ [[exe; artifact_path (self written)]; pip_install exe (lit "nosuchpkg")]
  /\ world (proc (loop needs_unknown true).2) = world (proc written).
Proof.
  unfold loop.
  apply (failed_install_is_final exe (subprocess_run needs_unknown index) os_path_isdir written true
           (lit "nosuchpkg")
           {| returncode := 1; stdout := []; stderr := traceback (lit "nosuchpkg") |}
           {| returncode := 1; stdout := [];
              stderr := lit "ERROR: No matching distribution found for nosuchpkg" |}
           (world (proc written)) (world (proc written))).
  - vm_compute. eauto.
  - vm_compute. reflexivity.
  - discriminate.
  - vm_compute. reflexivity.
  - vm_compute. reflexivity.
  - vm_compute. reflexivity.
  - discriminate.
Defined.

(** X22 on a script that prints. *)
Lemma first_run_witness :
  (loop prints true).1 = Ok (lit "42" ++ NL)
  /\ child_processes (trace (proc (loop prints true).2))
     = child_processes (trace (proc written)) ++ [[exe; artifact_path (self written)]]
  /\ world (proc (loop prints true).2) = world (proc written).
Proof.
  unfold loop.
  apply (first_run_succeeds exe (subprocess_run prints index) os_path_isdir written true
           {| returncode := 0; stdout := lit "42" ++ NL; stderr := [] |}
           (world (proc written))).
  - vm_compute. eauto.
  - vm_compute. reflexivity.
  - reflexivity.
Defined.

(** X24 on the environment with the Groq key only. *)
Lemma import_config_witness :
  dict_get (lit "groq") (API_KEYS cfg_groq) = env_key env_groq (lit "GROQ_API_KEY")
  /\ dict_get (lit "openai") (API_KEYS cfg_groq) = env_key env_groq (lit "OPENAI_API_KEY")
  /\ dict_mem (DEFAULT_PROVIDER cfg_groq) (API_KEYS cfg_groq) = true
  /\ is_ok (get_provider_config isprintable cfg_groq None) = true.
Proof.
  destruct (import_config_keys isprintable env_groq cfg_groq import_groq)
    as (Hgroq & Hopenai & _ & Hdefault & Hconfig & _).
  split; [exact Hgroq | split; [exact Hopenai | split; [exact Hdefault | exact Hconfig]]].
Defined.
